(** * Product data collection: image handling, persistence and export

    A shallow embedding of [app.py] (a Streamlit form application backed by
    Supabase) and the properties of its record model.

    - Python values (the dicts that travel to and from the store) are the
      inductive [pyval]; a dict is an association list in insertion order.
    - The remote store (one table, one storage bucket), the error display
      ([st.warning], [st.error]) and the two sources of fresh values (the
      UUID generator and the clock) make up the [World]; the functions of
      [app.py] that touch them are written in a state monad over it.
    - A remote call may raise.  Which calls raise is not decided by the
      program, so the world carries a script of outcomes, one per call.
    - A Python string is held as its UTF-8 bytes; [len] and slices count
      characters.
    - Pillow, the UUID generator, the store's text renderings, its rounding
      of [DECIMAL(10,2)] columns and its reading of a filter are outside the
      repository: they are the fields of the class [Platform].

    Write-only display calls ([st.info], [st.success], the progress bar, the
    status text) and the logger are left out: no value the program computes
    depends on them. *)

From Stdlib Require Import ZArith String List Ascii Bool Lia.
From Stdlib Require Import Sorting.Sorted Sorting.Permutation.
From Stdlib Require Import Floats.PrimFloat DecimalString.
From Corelib Require Import Floats.SpecFloat Floats.FloatOps.
From Stdlib Require Import Uint63.
Import ListNotations.

Set Warnings "-register-all".
Local Open Scope Z_scope.
Local Open Scope list_scope.

Infix "+++" := String.append (at level 60, right associativity).

(** ** Python strings *)

Module Str.

(** [s.split('.')[-1]] and [s.rsplit('.', 1)[0]] both cut at the last dot.
    [after_last_dot] and [before_last_dot] answer [None] when there is no
    dot, in which case Python returns the whole string. *)
Fixpoint after_last_dot (s : string) : option string :=
  match s with
  | EmptyString => None
  | String c s' =>
      match after_last_dot s' with
      | Some t => Some t
      | None => if Ascii.eqb c "."%char then Some s' else None
      end
  end.

Fixpoint before_last_dot (s : string) : option string :=
  match s with
  | EmptyString => None
  | String c s' =>
      match before_last_dot s' with
      | Some t => Some (String c t)
      | None => if Ascii.eqb c "."%char then Some EmptyString else None
      end
  end.

(** [s.split('.')[-1]] *)
Definition split_last (s : string) : string :=
  match after_last_dot s with Some t => t | None => s end.

(** [s.rsplit('.', 1)[0]] *)
Definition rsplit_head (s : string) : string :=
  match before_last_dot s with Some t => t | None => s end.

(** A Python string is held as its UTF-8 bytes.  A byte of the form
    [10xxxxxx] continues the character begun before it; every other byte
    begins a character. *)
Definition is_continuation (c : ascii) : bool :=
  match c with
  | Ascii _ _ _ _ _ _ b6 b7 => b7 && negb b6
  end.

(** [len(s)]: the number of characters. *)
Fixpoint len (s : string) : nat :=
  match s with
  | EmptyString => 0%nat
  | String c s' => if is_continuation c then len s' else S (len s')
  end.

(** [s[:n]]: the first [n] characters, each with all its bytes. *)
Fixpoint slice_to (n : nat) (s : string) : string :=
  match s with
  | EmptyString => EmptyString
  | String c s' =>
      if is_continuation c then String c (slice_to n s')
      else
        match n with
        | O => EmptyString
        | S n' => String c (slice_to n' s')
        end
  end.

(** [x in xs] for a list of strings *)
Definition mem (x : string) (xs : list string) : bool :=
  existsb (String.eqb x) xs.

(** [s.count(c)] for a character of one byte *)
Fixpoint count (c : ascii) (s : string) : nat :=
  match s with
  | EmptyString => 0%nat
  | String a s' => ((if Ascii.eqb a c then 1 else 0) + count c s')%nat
  end.

End Str.

(** ** Python values *)

Inductive pyval : Type :=
| PNone
| PBool (b : bool)
| PInt (n : Z)
| PFloat (x : float)
| PStr (s : string)
| PList (l : list pyval)
| PDict (d : list (string * pyval)).

Definition dict : Type := list (string * pyval).

Module Py.

(** [bool(v)] *)
Definition truthy (v : pyval) : bool :=
  match v with
  | PNone => false
  | PBool b => b
  | PInt n => negb (n =? 0)
  | PFloat x => negb (PrimFloat.eqb x 0%float)
  | PStr s => negb (String.eqb s "")
  | PList l => match l with [] => false | _ :: _ => true end
  | PDict d => match d with [] => false | _ :: _ => true end
  end.

(** [bool(x)] for a float: false exactly at [0.0] and [-0.0] *)
Definition float_truthy (x : float) : bool := negb (PrimFloat.eqb x 0%float).

(** [d.get(k)], as an option: [None] when the key is missing *)
Fixpoint lookup (d : dict) (k : string) : option pyval :=
  match d with
  | [] => None
  | (k', v) :: d' => if String.eqb k' k then Some v else lookup d' k
  end.

(** [d.get(k, default)] *)
Definition get (d : dict) (k : string) (default : pyval) : pyval :=
  match lookup d k with Some v => v | None => default end.

(** [d.get(k)], where a missing key gives [None] *)
Definition get_none (d : dict) (k : string) : pyval := get d k PNone.

(** [v.get(k, default)] on a value that may not be a dict: only dicts have
    [get], on anything else Python raises [AttributeError] ([None] here). *)
Definition attr_get (v : pyval) (k : string) (default : pyval) : option pyval :=
  match v with
  | PDict d => Some (get d k default)
  | _ => None
  end.

(** [v == s] for a string literal [s] *)
Definition eq_str (v : pyval) (s : string) : bool :=
  match v with
  | PStr t => String.eqb t s
  | _ => false
  end.

(** [v[:n]]: strings and lists can be sliced, anything else raises
    [TypeError] ([None] here). *)
Definition slice_to (n : nat) (v : pyval) : option pyval :=
  match v with
  | PStr s => Some (PStr (Str.slice_to n s))
  | PList l => Some (PList (firstn n l))
  | _ => None
  end.

End Py.

(** ** What lies outside the repository *)

(** [bytes] is the content of a file and [image] a decoded Pillow image; the
    program never looks inside either.  A fallible library call answers
    [None] where the library raises. *)
Class Platform (bytes image : Type) : Type := {
  (** [Image.open(file)] *)
  Image_open : bytes -> option image;
  (** [img.mode] *)
  Image_mode : image -> string;
  (** [img.convert(mode)] *)
  Image_convert : image -> string -> image;
  (** [img.save(output, format='JPEG', quality=q, optimize=True)], the bytes
      written to [output] *)
  Image_save_JPEG : image -> Z -> option bytes;
  (** what is left to read of a file after Pillow read from it and the
      [try] block of [compress_image] raised: the bytes after the position
      where the reading stopped *)
  Image_left_unread : bytes -> bytes;
  (** [output.getbuffer().nbytes] *)
  nbytes : bytes -> Z;
  (** the n-th value drawn from the UUID generator, as text *)
  uuid4 : nat -> string;
  (** [supabase.storage.from_('product-images').get_public_url(path)] *)
  get_public_url : string -> string;
  (** ISO-8601 text of an instant ([datetime.isoformat], and the store's
      rendering of a [TIMESTAMP WITH TIME ZONE] column) *)
  isoformat : Z -> string;
  (** a number as a column of type [DECIMAL(10,2)] gives it back *)
  decimal_10_2 : float -> float;
  (** the store's answer to a select with an [or] filter: the filter as the
      text that was sent, all rows as the store would send them, and the rows
      it answers with, in the order it chooses *)
  select_or : string -> list dict -> list dict
}.

Section Model.

Context {bytes image : Type} `{P : Platform bytes image}.

(** ** Uploaded files *)

(** A Streamlit [UploadedFile]: its [name], its declared MIME [type], its
    [size] in bytes as Streamlit reports it, and its content. *)
Record File : Type := {
  file_name : string;
  file_type : string;
  file_size : Z;
  file_data : bytes
}.

(** ** The world *)

(** An object of the bucket [product-images]. *)
Record StoredObject : Type := {
  obj_path : string;
  obj_content_type : string;
  obj_bytes : bytes
}.

(** A row of the table [products]: the two columns the store fills in
    ([id], [created_at]) and the columns the program sends. *)
Record Row : Type := {
  row_id : string;
  row_created_at : Z;
  row_cols : dict
}.

(** The requests the program sends to the store. *)
Inductive Request : Type :=
| ReqUpload (path content_type : string)
| ReqInsert (product_data : dict)
| ReqSelectAll
| ReqSearch (filter : string)
| ReqDelete (product_id : string).

(** What Streamlit shows as a warning or as an error. *)
Inductive UiMsg : Type :=
| st_warning_msg (s : string)
| st_error_msg (s : string).

Record World : Type := {
  bucket : list StoredObject;        (* newest first; an upsert shadows *)
  table : list Row;                  (* in insertion order *)
  faults : list (option string);     (* outcome of the next remote calls:
                                        [Some e] raises [Exception(e)] *)
  trace : list Request;              (* the requests sent so far *)
  rng : nat;                         (* UUIDs drawn so far *)
  clock : Z;                         (* the current instant *)
  ui : list UiMsg                    (* warnings and errors shown so far *)
}.

Definition M (A : Type) : Type := World -> A * World.

Definition ret {A} (a : A) : M A := fun w => (a, w).

Definition bind {A B} (m : M A) (k : A -> M B) : M B :=
  fun w => let (a, w1) := m w in k a w1.

Notation "x <- m ;; k" := (bind m (fun x => k))
  (at level 61, m at next level, right associativity).
Notation "m ;;; k" := (bind m (fun _ => k))
  (at level 61, right associativity).

Definition st_warning (s : string) : M unit := fun w =>
  (tt, {| bucket := bucket w; table := table w; faults := faults w;
          trace := trace w; rng := rng w; clock := clock w;
          ui := ui w ++ [st_warning_msg s] |}).

Definition st_error (s : string) : M unit := fun w =>
  (tt, {| bucket := bucket w; table := table w; faults := faults w;
          trace := trace w; rng := rng w; clock := clock w;
          ui := ui w ++ [st_error_msg s] |}).

(** [uuid.uuid4()], and the store's [uuid_generate_v4()] *)
Definition draw_uuid : M string := fun w =>
  (uuid4 (rng w),
   {| bucket := bucket w; table := table w; faults := faults w;
      trace := trace w; rng := S (rng w); clock := clock w; ui := ui w |}).

(** [datetime.now()], and the store's [NOW()]; time moves on. *)
Definition now : M Z := fun w =>
  (clock w,
   {| bucket := bucket w; table := table w; faults := faults w;
      trace := trace w; rng := rng w; clock := clock w + 1; ui := ui w |}).

(** One request to the store: it is recorded, and the next outcome of the
    script decides whether it raises.  An exhausted script raises nothing. *)
Definition remote (r : Request) : M (option string) := fun w =>
  (hd None (faults w),
   {| bucket := bucket w; table := table w; faults := tl (faults w);
      trace := trace w ++ [r]; rng := rng w; clock := clock w; ui := ui w |}).

Definition put_object (o : StoredObject) : M unit := fun w =>
  (tt, {| bucket := o :: bucket w; table := table w; faults := faults w;
          trace := trace w; rng := rng w; clock := clock w; ui := ui w |}).

Definition set_table (t : list Row) : M unit := fun w =>
  (tt, {| bucket := bucket w; table := t; faults := faults w;
          trace := trace w; rng := rng w; clock := clock w; ui := ui w |}).

Definition get_table : M (list Row) := fun w => (table w, w).

(** ** Image handling *)

Definition allowed_types : list string :=
  ["image/png"; "image/jpeg"; "image/jpg"; "image/webp"]%string.

Definition too_large_warning (f : File) : string :=
  "⚠️ " +++ file_name f +++ " is too large (max 5MB). Image skipped.".

Definition invalid_type_warning (f : File) : string :=
  "⚠️ " +++ file_name f +++ " has invalid type. Only PNG/JPG/WEBP allowed.".

(** [validate_image(file)]: the size is looked at first, the declared type
    second; each rejection shows its own warning. *)
Definition validate_image (file : option File) : M bool :=
  match file with
  | None => ret true
  | Some f =>
      if 5 * 1024 * 1024 <? file_size f then
        st_warning (too_large_warning f) ;;; ret false
      else if negb (Str.mem (file_type f) allowed_types) then
        st_warning (invalid_type_warning f) ;;; ret false
      else ret true
  end.

(** The image that is written out: RGBA and palette images are converted to
    RGB, every other mode is saved as it is. *)
Definition to_rgb_if_needed (img : image) : image :=
  if Str.mem (Image_mode img) ["RGBA"; "P"]%string
  then Image_convert img "RGB"
  else img.

(** [compress_image(file, max_size_mb=1)].  The [try] block covers opening,
    converting and saving; whatever raises there, the handler returns the
    file it was given.  The buffer returned on success gets a new name and
    the type [image/jpeg]; it has no [size] attribute in Python and none is
    read afterwards, the model records its length there. *)
Definition compress_image (file : option File) (max_size_mb : Z) : option File :=
  match file with
  | None => None
  | Some f =>
      if file_size f <=? max_size_mb * 1024 * 1024 then Some f
      else
        match Image_open (file_data f) with
        | None => Some f
        | Some img =>
            match Image_save_JPEG (to_rgb_if_needed img) 85 with
            | None => Some f
            | Some output =>
                Some {| file_name := Str.rsplit_head (file_name f) +++ ".jpg";
                        file_type := "image/jpeg";
                        file_size := nbytes output;
                        file_data := output |}
            end
        end
  end.

(** [file.read()] on the file that [compress_image(file)] hands back.  A
    file that was not opened is read from its start, and so is the buffer
    of a re-encoded image ([output.seek(0)]).  When the [try] block raised,
    the original file comes back with its read position where Pillow left
    it, and [read()] gives only the bytes after that position. *)
Definition read_after_compress (f : File) (max_size_mb : Z) : bytes :=
  if file_size f <=? max_size_mb * 1024 * 1024 then file_data f
  else
    match Image_open (file_data f) with
    | None => Image_left_unread (file_data f)
    | Some img =>
        match Image_save_JPEG (to_rgb_if_needed img) 85 with
        | None => Image_left_unread (file_data f)
        | Some output => output
        end
    end.

(** The descriptor of a stored image. *)
Definition stored_asset (filename path url : string) : pyval :=
  PDict [("filename"%string, PStr filename);
         ("path"%string, PStr path);
         ("url"%string, PStr url)].

(** [upload_image_to_supabase(file, folder)]: [None] when there is no file,
    when validation rejects it, or when the upload raises.  The bytes sent
    are what [file.read()] gives, which is called before [file.seek(0)]. *)
Definition upload_image_to_supabase (file : option File) (folder : string) : M pyval :=
  match file with
  | None => ret PNone
  | Some f0 =>
      ok <- validate_image (Some f0) ;;
      if negb ok then ret PNone
      else
        match compress_image (Some f0) 1 with
        | None => ret PNone
        | Some f =>
            let file_ext := Str.split_last (file_name f) in
            u <- draw_uuid ;;
            let unique_name := folder +++ "/" +++ u +++ "." +++ file_ext in
            let file_bytes := read_after_compress f0 1 in
            e <- remote (ReqUpload unique_name (file_type f)) ;;
            match e with
            | None =>
                put_object {| obj_path := unique_name;
                              obj_content_type := file_type f;
                              obj_bytes := file_bytes |} ;;;
                ret (stored_asset (file_name f) unique_name
                                  (get_public_url unique_name))
            | Some msg =>
                st_error ("Error uploading " +++ file_name f +++ ": "
                          +++ Str.slice_to 100 msg) ;;;
                ret PNone
            end
        end
  end.

(** ** Persistence *)

(** The columns the table types [DECIMAL(10,2)]. *)
Definition decimal_columns : list string :=
  ["regular_price"; "sale_price"; "weight"]%string.

(** The columns of a row as the store gives them back.  [row_cols] keeps
    the record as it was sent; a number sent to a [DECIMAL(10,2)] column
    comes back as that column holds it.  The other columns (text, integer,
    JSONB) give back what was sent: JSONB may reorder the keys of an object,
    which no [get] can tell. *)
Definition as_stored (cols : dict) : dict :=
  map (fun kv =>
         match snd kv with
         | PFloat x =>
             if Str.mem (fst kv) decimal_columns
             then (fst kv, PFloat (decimal_10_2 x)) else kv
         | _ => kv
         end) cols.

(** A row as the store sends it back. *)
Definition row_json (r : Row) : dict :=
  ("id"%string, PStr (row_id r))
  :: ("created_at"%string, PStr (isoformat (row_created_at r)))
  :: as_stored (row_cols r).

(** [.order('created_at', desc=True)]: the rows by descending creation
    time. *)
Fixpoint insert_desc (r : Row) (rs : list Row) : list Row :=
  match rs with
  | [] => [r]
  | r' :: rs' =>
      if row_created_at r' <=? row_created_at r then r :: rs
      else r' :: insert_desc r rs'
  end.

Fixpoint order_desc (rs : list Row) : list Row :=
  match rs with
  | [] => []
  | r :: rs' => insert_desc r (order_desc rs')
  end.

(** The store executing an insert: it fills in [id] and [created_at] and
    answers with the rows it inserted. *)
Definition db_insert (product_data : dict) : M (list dict) :=
  i <- draw_uuid ;;
  t <- now ;;
  rows <- get_table ;;
  let r := {| row_id := i; row_created_at := t; row_cols := product_data |} in
  set_table (rows ++ [r]) ;;;
  ret [row_json r].

(** [save_product_to_supabase(product_data)] *)
Definition save_product_to_supabase (product_data : dict) : M pyval :=
  e <- remote (ReqInsert product_data) ;;
  match e with
  | None =>
      data <- db_insert product_data ;;
      ret (match data with d :: _ => PDict d | [] => PNone end)
  | Some msg =>
      st_error ("Error saving product: " +++ Str.slice_to 200 msg) ;;;
      ret PNone
  end.

(** [get_all_products_from_supabase()].  The store is taken to answer a
    select with every row of the table (no row limit is configured). *)
Definition get_all_products_from_supabase : M (list dict) :=
  e <- remote ReqSelectAll ;;
  match e with
  | None =>
      rows <- get_table ;;
      ret (map row_json (order_desc rows))
  | Some msg =>
      st_error ("Error fetching products: " +++ Str.slice_to 100 msg) ;;;
      ret []
  end.

(** [delete_product_from_supabase(product_id)] *)
Definition delete_product_from_supabase (product_id : string) : M bool :=
  e <- remote (ReqDelete product_id) ;;
  match e with
  | None =>
      rows <- get_table ;;
      set_table (filter (fun r => negb (String.eqb (row_id r) product_id)) rows) ;;;
      ret true
  | Some msg =>
      st_error ("Error deleting product: " +++ Str.slice_to 100 msg) ;;;
      ret false
  end.

(** [f"product_name.ilike.%{query}%,sku.ilike.%{query}%"]: the text of the
    [or] filter, with the query pasted in as it was typed. *)
Definition search_filter (query : string) : string :=
  "product_name.ilike.%" +++ query +++ "%,sku.ilike.%" +++ query +++ "%".

(** [search_products(query)].  What the store makes of the text of the
    filter, and in which order it answers, is the store's. *)
Definition search_products (query : string) : M (list dict) :=
  let filter_text := search_filter query in
  e <- remote (ReqSearch filter_text) ;;
  match e with
  | None =>
      rows <- get_table ;;
      ret (select_or filter_text (map row_json rows))
  | Some msg =>
      st_error ("Error searching products: " +++ Str.slice_to 100 msg) ;;;
      ret []
  end.

(** ** The form *)

(** The three entries of the product-type select box. *)
Inductive ProductType : Type :=
| CricketBat
| SimpleProduct
| VariableProduct.

Definition product_type_label (t : ProductType) : string :=
  match t with
  | CricketBat => "Cricket Bat (Deep Customization)"
  | SimpleProduct => "Simple Product"
  | VariableProduct => "Variable Product"
  end.

Definition is_variable (t : ProductType) : bool :=
  String.eqb (product_type_label t) "Variable Product".

Definition is_bat (t : ProductType) : bool :=
  String.eqb (product_type_label t) "Cricket Bat (Deep Customization)".

(** The widgets of one variation. *)
Record VariationInput : Type := {
  var_name : string;
  var_price : float;
  var_sku : string;
  var_stock : Z;
  var_image : option File
}.

(** What the widgets of the page hold when the save button is pressed. *)
Record Form : Type := {
  product_type : ProductType;
  product_name : string;
  sku : string;
  regular_price : float;
  sale_price : float;
  stock_status : string;
  stock_quantity : Z;
  weight : float;
  product_category : string;
  short_description : string;
  full_description : string;
  main_image : option File;
  gallery_images : list File;
  (* the variable-product section *)
  variation_inputs : list VariationInput;
  (* the deep-customization section *)
  enable_deep_custom : bool;
  edition_heading : string;
  edition_subtitle : string;
  edition_image : option File;
  short_edition_desc : string;
  grains : string;
  grade : string;
  grain_description : string;
  shape_inputs : list string;
  enable_laser : bool;
  laser_price_input : float;
  laser_max_chars_input : Z;
  laser_image_input : option File
}.

(** One entry of [variations_data]; [image] is the slot that first holds
    the uploaded file and then, overwritten in place, the upload's result. *)
Definition variation_entry (v : VariationInput) (image_slot : pyval) : pyval :=
  PDict [("name"%string, PStr (var_name v));
         ("price"%string, PFloat (var_price v));
         ("sku"%string, PStr (var_sku v));
         ("stock"%string, PInt (var_stock v));
         ("image"%string, image_slot)].

(** [handle_shapes]: one label per shape field that is not empty. *)
Definition handle_shapes (f : Form) : list pyval :=
  map (fun shape => PDict [("label"%string, PStr shape)])
      (filter (fun shape => negb (String.eqb shape "")) (shape_inputs f)).

Definition laser_price (f : Form) : pyval :=
  if enable_laser f then PFloat (laser_price_input f) else PInt 0.

Definition laser_max_chars (f : Form) : pyval :=
  if enable_laser f then PInt (laser_max_chars_input f) else PInt 0.

Definition laser_image (f : Form) : option File :=
  if enable_laser f then laser_image_input f else None.

(** [deep_custom_data] once the section is enabled, with its two image
    slots. *)
Definition deep_custom_entry (f : Form) (edition_slot laser_slot : pyval) : dict :=
  [("enabled"%string, PBool true);
   ("edition"%string,
    PDict [("heading"%string, PStr (edition_heading f));
           ("subtitle"%string, PStr (edition_subtitle f));
           ("short_description"%string, PStr (short_edition_desc f));
           ("grains"%string, PStr (grains f));
           ("grade"%string, PStr (grade f));
           ("grain_description"%string, PStr (grain_description f));
           ("image"%string, edition_slot)]);
   ("handle_shapes"%string, PList (handle_shapes f));
   ("laser_engraving"%string,
    PDict [("enabled"%string, PBool (enable_laser f));
           ("price"%string, laser_price f);
           ("max_chars"%string, laser_max_chars f);
           ("image"%string, laser_slot)])].

(** The record sent to the store (the dict literal [product_data]). *)
Definition product_data (f : Form) (main_image_data : pyval)
    (gallery_data variations_data : list pyval) (deep_custom_data : dict)
    (timestamp : Z) : dict :=
  [("product_name"%string, PStr (product_name f));
   ("product_type"%string, PStr (product_type_label (product_type f)));
   ("sku"%string, PStr (sku f));
   ("regular_price"%string, PFloat (regular_price f));
   ("sale_price"%string,
    if Py.float_truthy (sale_price f) then PFloat (sale_price f) else PNone);
   ("stock_status"%string, PStr (stock_status f));
   ("stock_quantity"%string, PInt (stock_quantity f));
   ("weight"%string,
    if Py.float_truthy (weight f) then PFloat (weight f) else PNone);
   ("category"%string, PStr (product_category f));
   ("short_description"%string, PStr (short_description f));
   ("full_description"%string, PStr (full_description f));
   ("main_image"%string, main_image_data);
   ("gallery_images"%string, PList gallery_data);
   ("variations"%string,
    if is_variable (product_type f) then PList variations_data else PNone);
   ("deep_customization"%string,
    if is_bat (product_type f) then PDict deep_custom_data else PNone);
   ("product_data"%string,
    PDict [("timestamp"%string, PStr (isoformat timestamp));
           ("complete_data"%string, PStr "Full product structure here")])].

(** ** The save handler *)

(** [upload_image_to_supabase(x, folder) if x else None], and likewise
    [if d['image']: d['image'] = upload_image_to_supabase(d['image'], folder)]
    for a slot that holds a file or [None]. *)
Definition upload_present (file : option File) (folder : string) : M pyval :=
  match file with
  | Some _ => upload_image_to_supabase file folder
  | None => ret PNone
  end.

(** The gallery loop: a failed upload leaves no entry. *)
Fixpoint upload_gallery (imgs : list File) : M (list pyval) :=
  match imgs with
  | [] => ret []
  | img :: rest =>
      img_data <- upload_image_to_supabase (Some img) "products/gallery" ;;
      more <- upload_gallery rest ;;
      ret (if Py.truthy img_data then img_data :: more else more)
  end.

(** The variations loop. *)
Fixpoint upload_variations (vs : list VariationInput) : M (list pyval) :=
  match vs with
  | [] => ret []
  | v :: rest =>
      slot <- upload_present (var_image v) "products/variations" ;;
      more <- upload_variations rest ;;
      ret (variation_entry v slot :: more)
  end.

(** The two images of the deep-customization section. *)
Definition upload_deep_custom (f : Form) : M dict :=
  edition_slot <- upload_present (edition_image f) "products/edition" ;;
  laser_slot <- upload_present (laser_image f) "products/laser" ;;
  ret (deep_custom_entry f edition_slot laser_slot).

(** The four upload steps, in the order of the handler. *)
Definition upload_all (f : Form) : M (pyval * list pyval * list pyval * dict) :=
  main_image_data <- upload_present (main_image f) "products/main" ;;
  gallery_data <- upload_gallery (gallery_images f) ;;
  variations_data <-
    (if is_variable (product_type f)
     then upload_variations (variation_inputs f) else ret []) ;;
  deep_custom_data <-
    (if is_bat (product_type f) && enable_deep_custom f
     then upload_deep_custom f else ret []) ;;
  ret (main_image_data, gallery_data, variations_data, deep_custom_data).

Inductive Outcome : Type :=
| Blocked             (* the form was refused, nothing was sent *)
| Saved (result : pyval)
| Failed.             (* the insert did not go through *)

(** The handler of the button [Save to Database]. *)
Definition save_to_database (SUPABASE_CONNECTED : bool) (f : Form) : M Outcome :=
  if String.eqb (product_name f) "" || PrimFloat.eqb (regular_price f) 0%float then
    st_error "❌ Please fill in Product Name and Regular Price" ;;; ret Blocked
  else if negb SUPABASE_CONNECTED then
    st_error "❌ Database not connected. Check setup." ;;; ret Blocked
  else
    up <- upload_all f ;;
    let '(main_image_data, gallery_data, variations_data, deep_custom_data) := up in
    timestamp <- now ;;
    result <- save_product_to_supabase
                (product_data f main_image_data gallery_data variations_data
                              deep_custom_data timestamp) ;;
    if Py.truthy result then ret (Saved result)
    else
      st_error "❌ Failed to save product. Check error messages above." ;;;
      ret Failed.

(** ** Spreadsheet export *)

(** A sheet of the workbook: a data frame written with [to_excel]. *)
Record Sheet : Type := {
  sheet_name : string;
  sheet_columns : list string;
  sheet_rows : list (list pyval)
}.

(** [pd.DataFrame(records)]: the columns are the keys of the records, and
    there are none when there is no record. *)
Definition data_frame (name : string) (keys : list string)
    (records : list (list pyval)) : Sheet :=
  {| sheet_name := name;
     sheet_columns := match records with [] => [] | _ :: _ => keys end;
     sheet_rows := records |}.

Fixpoint traverse {A B : Type} (g : A -> option B) (l : list A) : option (list B) :=
  match l with
  | [] => Some []
  | a :: l' =>
      match g a, traverse g l' with
      | Some b, Some bs => Some (b :: bs)
      | _, _ => None
      end
  end.

Definition basic_columns : list string :=
  ["Product ID"; "Product Name"; "Type"; "SKU"; "Regular Price"; "Sale Price";
   "Stock Status"; "Stock Quantity"; "Category"; "Weight"; "Created At"]%string.

(** [product.get('created_at', '')[:10] if product.get('created_at') else ''] *)
Definition created_at_cell (product : dict) : option pyval :=
  if Py.truthy (Py.get_none product "created_at")
  then Py.slice_to 10 (Py.get product "created_at" (PStr ""))
  else Some (PStr "").

(** One record of [basic_data]. *)
Definition basic_record (product : dict) : option (list pyval) :=
  match created_at_cell product with
  | None => None
  | Some created =>
      Some [Py.get product "id" (PStr "");
            Py.get product "product_name" (PStr "");
            Py.get product "product_type" (PStr "");
            Py.get product "sku" (PStr "");
            Py.get product "regular_price" (PInt 0);
            Py.get product "sale_price" (PInt 0);
            Py.get product "stock_status" (PStr "");
            Py.get product "stock_quantity" (PInt 0);
            Py.get product "category" (PStr "");
            Py.get product "weight" (PInt 0);
            created]
  end.

Definition bat_columns : list string :=
  ["Product Name"; "SKU"; "Edition Heading"; "Grains"; "Grade";
   "Laser Engraving"; "Laser Price"]%string.

Definition has_bat_type (product : dict) : bool :=
  Py.eq_str (Py.get_none product "product_type") "Cricket Bat (Deep Customization)".

Definition deep_custom_of (product : dict) : pyval :=
  Py.get product "deep_customization" (PDict []).

(** The record appended to [bat_data] for a product whose payload
    [deep_custom] is truthy; [None] when one of the [get] calls raises. *)
Definition bat_record (product : dict) (deep_custom : pyval) : option (list pyval) :=
  match Py.attr_get deep_custom "edition" (PDict []) with
  | None => None
  | Some edition =>
      match Py.attr_get deep_custom "laser_engraving" (PDict []) with
      | None => None
      | Some laser =>
          match Py.attr_get edition "heading" (PStr ""),
                Py.attr_get edition "grains" (PStr ""),
                Py.attr_get edition "grade" (PStr ""),
                Py.attr_get laser "enabled" PNone,
                Py.attr_get laser "price" (PInt 0) with
          | Some heading, Some grains_v, Some grade_v, Some enabled, Some price =>
              Some [Py.get product "product_name" (PStr "");
                    Py.get product "sku" (PStr "");
                    heading; grains_v; grade_v;
                    PStr (if Py.truthy enabled then "Yes" else "No");
                    price]
          | _, _, _, _, _ => None
          end
      end
  end.

(** The loop that fills [bat_data]: products without a truthy payload are
    passed over. *)
Fixpoint bat_data (bat_products : list dict) : option (list (list pyval)) :=
  match bat_products with
  | [] => Some []
  | product :: rest =>
      let deep_custom := deep_custom_of product in
      if Py.truthy deep_custom then
        match bat_record product deep_custom, bat_data rest with
        | Some record, Some records => Some (record :: records)
        | _, _ => None
        end
      else bat_data rest
  end.

(** The workbook written by the Excel export: the sheet [Products], and the
    sheet [Bat Customization] when [bat_products] and then [bat_data] are
    not empty.  [None] when building the records raises; what openpyxl
    itself makes of a cell is not part of the model. *)
Definition excel_export (products : list dict) : option (list Sheet) :=
  match traverse basic_record products with
  | None => None
  | Some basic_data =>
      let df := data_frame "Products" basic_columns basic_data in
      let bat_products := filter has_bat_type products in
      match bat_products with
      | [] => Some [df]
      | _ :: _ =>
          match bat_data bat_products with
          | None => None
          | Some [] => Some [df]
          | Some (r :: rs) =>
              Some [df; data_frame "Bat Customization" bat_columns (r :: rs)]
          end
      end
  end.

(** ** The delete button of the product list *)

(** [d[k] = v]: the value of an existing key is replaced where it stands, a
    new key goes to the end. *)
Fixpoint dict_set (d : dict) (k : string) (v : pyval) : dict :=
  match d with
  | [] => [(k, v)]
  | (k', v') :: d' =>
      if String.eqb k' k then (k', v) :: d'
      else (k', v') :: dict_set d' k v
  end.

(** The key of [st.session_state] under which a first click on the delete
    button of a product is remembered. *)
Definition confirm_key (product_id : string) : string :=
  "confirm_delete_" +++ product_id.

Inductive DeleteClick : Type :=
| AskedToConfirm      (* the click was remembered, nothing was deleted *)
| Deleted             (* the product was deleted and the page reruns *)
| DeleteFailed.       (* the delete did not go through *)

(** What a click on the delete button of a listed product does.  The
    product is a record the listing returned, so [product['id']] is the text
    of the row's id.  The session state outlives the run of the script. *)
Definition delete_clicked (session_state : dict) (product_id : string)
  : M (DeleteClick * dict) :=
  if Py.truthy (Py.get session_state (confirm_key product_id) (PBool false)) then
    ok <- delete_product_from_supabase product_id ;;
    if ok then ret (Deleted, session_state)
    else st_error "❌ Failed to delete product" ;;; ret (DeleteFailed, session_state)
  else
    st_warning "⚠️ Click delete again to confirm" ;;;
    ret (AskedToConfirm, dict_set session_state (confirm_key product_id) (PBool true)).

(** ** The analytics of the export page *)

(** Keys of a Python dict: lists and dicts cannot be keys. *)
Definition hashable (v : pyval) : bool :=
  match v with
  | PList _ | PDict _ => false
  | _ => true
  end.

(** [x == n] for a float and an integer, which Python compares exactly. *)
Definition float_is_int (x : float) (n : Z) : bool :=
  match Prim2SF x with
  | S754_zero _ => n =? 0
  | S754_finite s m e =>
      let v := if s then Z.neg m else Z.pos m in
      if 0 <=? e then n =? v * 2 ^ e
      else (Z.pos m mod 2 ^ (- e) =? 0) && (n =? v / 2 ^ (- e))
  | _ => false
  end.

(** The integer a bool or an int stands for as a key. *)
Definition key_int (v : pyval) : option Z :=
  match v with
  | PBool b => Some (if b then 1 else 0)
  | PInt n => Some n
  | _ => None
  end.

(** Two hashable values are the same key: equal text, both [None], or equal
    numbers ([True], [1] and [1.0] are one key). *)
Definition key_eqb (a b : pyval) : bool :=
  match a, b with
  | PNone, PNone => true
  | PStr s, PStr t => String.eqb s t
  | PFloat x, PFloat y => PrimFloat.eqb x y
  | PFloat x, _ =>
      match key_int b with Some n => float_is_int x n | None => false end
  | _, PFloat y =>
      match key_int a with Some n => float_is_int y n | None => false end
  | _, _ =>
      match key_int a, key_int b with
      | Some n, Some m => n =? m
      | _, _ => false
      end
  end.

(** A dict of counts, in insertion order. *)
Definition counter : Type := list (pyval * Z).

(** [counts[k] = counts.get(k, 0) + 1] for a hashable [k]: an existing key
    keeps its place and its first spelling. *)
Fixpoint counter_bump (counts : counter) (k : pyval) : counter :=
  match counts with
  | [] => [(k, 1)]
  | (k', n) :: rest =>
      if key_eqb k' k then (k', n + 1) :: rest
      else (k', n) :: counter_bump rest k
  end.

(** The counting loops of the analytics: [field] is [product_type] or
    [stock_status], a product without the field counts as [Unknown].
    [None] when a value cannot be a key ([TypeError]). *)
Fixpoint count_from (counts : counter) (field : string) (products : list dict)
  : option counter :=
  match products with
  | [] => Some counts
  | product :: rest =>
      let k := Py.get product field (PStr "Unknown") in
      if hashable k then count_from (counter_bump counts k) field rest
      else None
  end.

Definition type_counts (products : list dict) : option counter :=
  count_from [] "product_type" products.

Definition stock_counts (products : list dict) : option counter :=
  count_from [] "stock_status" products.

(** A product has a payload the export can use: its [deep_customization]
    is truthy (not missing, not [None], not an empty dict). *)
Definition has_payload (product : dict) : bool :=
  Py.truthy (deep_custom_of product).

(** The products that get a row on the sheet [Bat Customization]. *)
Definition on_bat_sheet (product : dict) : bool :=
  has_bat_type product && has_payload product.

(** ** Vocabulary of the properties *)

(** A file passes validation: it is at most 5 MiB and its declared type is
    one of [allowed_types]. *)
Definition passes_validation (f : File) : bool :=
  (file_size f <=? 5 * 1024 * 1024) && Str.mem (file_type f) allowed_types.

(** The number of upload requests a file causes: one when it is there and
    passes validation. *)
Definition upload_requests (file : option File) : nat :=
  match file with
  | Some f => if passes_validation f then 1%nat else 0%nat
  | None => 0%nat
  end.

Definition sum_requests {A : Type} (g : A -> option File) (l : list A) : nat :=
  fold_right (fun a n => (upload_requests (g a) + n)%nat) 0%nat l.

(** The number of upload requests the save handler sends for a form. *)
Definition form_upload_requests (f : Form) : nat :=
  (upload_requests (main_image f)
   + (sum_requests Some (gallery_images f)
      + ((if is_variable (product_type f)
          then sum_requests var_image (variation_inputs f) else 0)
         + (if is_bat (product_type f) && enable_deep_custom f
            then upload_requests (edition_image f) + upload_requests (laser_image f)
            else 0))))%nat.

(** Newest first. *)
Definition newer_or_same (r1 r2 : Row) : Prop :=
  row_created_at r2 <= row_created_at r1.

(** The store answers the next request: its outcome in the script is not a
    fault. *)
Definition next_call_succeeds (w : World) : Prop := hd None (faults w) = None.

(** The next request raises [Exception(msg)]. *)
Definition next_call_raises (w : World) (msg : string) : Prop :=
  hd None (faults w) = Some msg.

(** What a failed operation leaves behind: one request sent, one error
    shown, the table untouched, and a fixed value for the caller. *)
Definition reported_once {A : Type} (run : A * World) (w : World)
    (request : Request) (shown : string) (sentinel : A) : Prop :=
  fst run = sentinel
  /\ trace (snd run) = trace w ++ [request]
  /\ faults (snd run) = tl (faults w)
  /\ ui (snd run) = ui w ++ [st_error_msg shown]
  /\ table (snd run) = table w.

(** From [w] to [w1] the program sent [n] requests, none of them to the
    table, and removed nothing from the bucket. *)
Definition advances (n : nat) (w w1 : World) : Prop :=
  faults w1 = skipn n (faults w)
  /\ table w1 = table w
  /\ exists objs, bucket w1 = objs ++ bucket w.

(** The two payloads of a record, by its discriminant: the one the
    discriminant selects holds a list or a dict, the other holds [None]. *)
Definition payloads_by_type (t : ProductType) (cols : dict) : Prop :=
  Py.lookup cols "product_type" = Some (PStr (product_type_label t))
  /\ match t with
     | VariableProduct =>
         (exists vs, Py.lookup cols "variations" = Some (PList vs))
         /\ Py.lookup cols "deep_customization" = Some PNone
     | CricketBat =>
         Py.lookup cols "variations" = Some PNone
         /\ (exists d, Py.lookup cols "deep_customization" = Some (PDict d))
     | SimpleProduct =>
         Py.lookup cols "variations" = Some PNone
         /\ Py.lookup cols "deep_customization" = Some PNone
     end.

(** At most one of the two payloads is not [None]. *)
Definition at_most_one_payload (cols : dict) : Prop :=
  Py.lookup cols "variations" = Some PNone
  \/ Py.lookup cols "deep_customization" = Some PNone.

(** An optional number of a record: [None] when the entered value is zero,
    the value otherwise. *)
Definition optional_number (entered : float) (stored : option pyval) : Prop :=
  (PrimFloat.eqb entered 0%float = true -> stored = Some PNone)
  /\ (PrimFloat.eqb entered 0%float = false -> stored = Some (PFloat entered)).















Definition is_upload (r : Request) : bool :=
  match r with
  | ReqUpload _ _ => true
  | _ => false
  end.

(** From [w] to [w1] the program sent [n] requests, all of them uploads. *)
Definition sent_uploads (n : nat) (w w1 : World) : Prop :=
  exists ups, trace w1 = trace w ++ ups
              /\ forallb is_upload ups = true
              /\ length ups = n.

(** Every row of the table was created before the current instant. *)
Definition created_before_now (w : World) : Prop :=
  Forall (fun r => row_created_at r < clock w) (table w).

(** The name contains a dot. *)
Fixpoint has_dot (s : string) : bool :=
  match s with
  | EmptyString => false
  | String c s' => Ascii.eqb c "."%char || has_dot s'
  end.

(** A row whose columns are a record of the save handler: the record of
    some form, with an empty or a filled deep-customization dict. *)
Definition app_made (r : Row) : Prop :=
  exists (f : Form) main_image_data gallery_data variations_data
         deep_custom_data timestamp,
    row_cols r = product_data f main_image_data gallery_data variations_data
                              deep_custom_data timestamp
    /\ (deep_custom_data = []
        \/ exists edition_slot laser_slot,
             deep_custom_data = deep_custom_entry f edition_slot laser_slot).


End Model.

Arguments File : clear implicits.
Arguments StoredObject : clear implicits.
Arguments World : clear implicits.
Arguments VariationInput : clear implicits.
Arguments Form : clear implicits.

(** ** A small platform for running the model

    Contents are described rather than spelled out byte by byte: a [blob]
    is an image file of a given format, colour mode and length, or bytes
    that are no image.  Like Pillow, the stand-in refuses to open what is no
    image and to write anything but the modes L, RGB and CMYK as JPEG. *)
Module Demo.

Inductive blob : Type :=
| Picture (format mode : string) (length : Z)
| Junk (length : Z).

Record picture : Type := {
  pic_mode : string;
  pic_source_length : Z
}.

Definition blob_length (b : blob) : Z :=
  match b with
  | Picture _ _ n => n
  | Junk n => n
  end.

Definition decimal (n : nat) : string :=
  NilEmpty.string_of_uint (Nat.to_uint n).

Definition lower_char (c : ascii) : ascii :=
  let n := nat_of_ascii c in
  if ((65 <=? n) && (n <=? 90))%nat then ascii_of_nat (n + 32) else c.

Fixpoint lower (s : string) : string :=
  match s with
  | EmptyString => EmptyString
  | String c s' => String (lower_char c) (lower s')
  end.

Fixpoint contains (needle hay : string) : bool :=
  String.prefix needle hay
  || match hay with
     | EmptyString => false
     | String _ hay' => contains needle hay'
     end.

Fixpoint until_percent (s : string) : string :=
  match s with
  | EmptyString => EmptyString
  | String c s' =>
      if Ascii.eqb c "%"%char then EmptyString else String c (until_percent s')
  end.

Fixpoint after_percent (s : string) : string :=
  match s with
  | EmptyString => EmptyString
  | String c s' => if Ascii.eqb c "%"%char then s' else after_percent s'
  end.

Definition text_contains (product : dict) (k q : string) : bool :=
  match Py.lookup product k with
  | Some (PStr t) => contains (lower q) (lower t)
  | _ => false
  end.

(** A store that reads the text between the first two percent signs of the
    filter as the pattern of both conditions, and answers in the order of
    the rows. *)
Definition select_by_name_or_sku (filter_text : string) (rows : list dict)
  : list dict :=
  let q := until_percent (after_percent filter_text) in
  filter (fun p => text_contains p "product_name" q || text_contains p "sku" q)
         rows.

(** The integer part of a float that is not negative. *)
Definition floor_Z (x : float) : Z :=
  match Prim2SF x with
  | S754_finite s m e =>
      let v := if s then Z.neg m else Z.pos m in
      if 0 <=? e then v * 2 ^ e else v / 2 ^ (- e)
  | _ => 0
  end.

(** Two decimals, rounded half up. *)
Definition two_decimals (x : float) : float :=
  PrimFloat.div
    (PrimFloat.of_uint63
       (Uint63.of_Z (floor_Z (PrimFloat.add (PrimFloat.mul x 100%float) 0.5%float))))
    100%float.

#[export] Instance platform : Platform blob picture := {
  Image_open b :=
    match b with
    | Picture _ m n => Some {| pic_mode := m; pic_source_length := n |}
    | Junk _ => None
    end;
  Image_mode := pic_mode;
  Image_convert p m := {| pic_mode := m; pic_source_length := pic_source_length p |};
  Image_save_JPEG p quality :=
    if Str.mem (pic_mode p) ["L"; "RGB"; "CMYK"]%string
    then Some (Picture "JPEG" (pic_mode p) (pic_source_length p * quality / 400))
    else None;
  Image_left_unread b :=
    match b with
    | Picture _ _ n => Junk (Z.min n 4)
    | Junk n => Junk (Z.max 0 (n - 16))
    end;
  nbytes := blob_length;
  uuid4 n := "00000000-0000-4000-8000-" +++ decimal n;
  get_public_url path := "https://demo.supabase.co/storage/v1/object/public/product-images/" +++ path;
  isoformat t := "2024-01-01T00:00:00." +++ decimal (Z.to_nat t) +++ "+00:00";
  decimal_10_2 := two_decimals;
  select_or := select_by_name_or_sku
}.

(** A world with an empty store in which no call fails. *)
Definition quiet : World blob :=
  {| bucket := []; table := []; faults := []; trace := []; rng := 0%nat;
     clock := 0; ui := [] |}.

(** The same world with a script of outcomes. *)
Definition with_faults (fs : list (option string)) (w : World blob) : World blob :=
  {| bucket := bucket w; table := table w; faults := fs; trace := trace w;
     rng := rng w; clock := clock w; ui := ui w |}.

Definition with_table (t : list Row) (w : World blob) : World blob :=
  {| bucket := bucket w; table := t; faults := faults w; trace := trace w;
     rng := rng w; clock := clock w; ui := ui w |}.

Definition png (name : string) (mode : string) (n : Z) : File blob :=
  {| file_name := name; file_type := "image/png"; file_size := n;
     file_data := Picture "PNG" mode n |}.

(** 6 MiB, 2 MiB and 200 KiB. *)
Definition MiB6 : Z := 6 * 1024 * 1024.
Definition MiB2 : Z := 2 * 1024 * 1024.
Definition KiB200 : Z := 200 * 1024.

(** A JPEG photo whose browser declares it as [image/jpg]. *)
Definition jpg_photo : File blob :=
  {| file_name := "bat.jpg"; file_type := "image/jpg"; file_size := KiB200;
     file_data := Picture "JPEG" "RGB" KiB200 |}.

(** A 2 MiB file named and declared as a PNG whose bytes are no image. *)
Definition broken_png : File blob :=
  {| file_name := "scan.png"; file_type := "image/png"; file_size := MiB2;
     file_data := Junk MiB2 |}.

(** A 6 MiB file with a type that is not allowed. *)
Definition big_gif : File blob :=
  {| file_name := "anim.gif"; file_type := "image/gif"; file_size := MiB6;
     file_data := Picture "GIF" "P" MiB6 |}.

(** A form: the basic fields, the images, and whether the
    deep-customization section is enabled; the other widgets are left as
    the page first shows them. *)
Definition form_of (t : ProductType) (name : string) (price : float)
    (main : option (File blob)) (gallery : list (File blob))
    (deep_custom : bool) : Form blob :=
  {| product_type := t; product_name := name; sku := "BAT-001";
     regular_price := price; sale_price := 0%float;
     stock_status := "In Stock"; stock_quantity := 0; weight := 0%float;
     product_category := ""; short_description := ""; full_description := "";
     main_image := main; gallery_images := gallery;
     variation_inputs :=
       [{| var_name := ""; var_price := 0%float; var_sku := ""; var_stock := 0;
           var_image := None |}];
     enable_deep_custom := deep_custom;
     edition_heading := "Reserve Edition"; edition_subtitle := "";
     edition_image := None;
     short_edition_desc := ""; grains := "6-8 Grains"; grade := "Grade A+";
     grain_description := "";
     shape_inputs := ["Round"; ""]%string;
     enable_laser := true; laser_price_input := 5.5%float;
     laser_max_chars_input := 8; laser_image_input := None |}.

(** The scenario of the specification: a simple product without images. *)
Definition reserve_bat : Form blob :=
  form_of SimpleProduct "Reserve Bat" 4999%float None [] false.

(** The same product with a 6 MiB PNG as main image and a small gallery
    image. *)
Definition reserve_bat_big_image : Form blob :=
  form_of SimpleProduct "Reserve Bat" 4999%float
          (Some (png "front.png" "RGB" MiB6)) [png "side.png" "RGBA" KiB200] false.

(** A cricket bat saved with the box [Enable Deep Customization] cleared. *)
Definition plain_bat : Form blob :=
  form_of CricketBat "Club Bat" 1500%float None [] false.

(** A cricket bat with its customization. *)
Definition custom_bat : Form blob :=
  form_of CricketBat "Reserve Edition Bat" 9000%float None [] true.

Definition row_of (i : string) (created : Z) (name : string) : Row :=
  {| row_id := i; row_created_at := created;
     row_cols := [("product_name"%string, PStr name)] |}.

(** Three rows, not in the order of their creation. *)
Definition three_rows : list Row :=
  [row_of "a" 5 "first"; row_of "c" 9 "third"; row_of "b" 7 "second"].

(** A store with three rows that cannot be reached. *)
Definition unreachable : World blob :=
  with_faults [Some "connection refused"%string] (with_table three_rows quiet).

(** A 2 MiB greyscale PNG with an alpha channel (mode LA). *)
Definition gray_alpha_png : File blob := png "logo.png" "LA" MiB2.

(** The records the export page reads after [f] was saved into an empty
    store. *)
Definition listed_after_saving (f : Form blob) : list dict :=
  fst (get_all_products_from_supabase (snd (save_to_database true f quiet))).

(** A store with three rows at an instant after their creation. *)
Definition stocked : World blob :=
  {| bucket := []; table := three_rows; faults := []; trace := [];
     rng := 3%nat; clock := 10; ui := [] |}.

(** The form [f] with other variations. *)
Definition with_variations (vs : list (VariationInput blob)) (f : Form blob)
  : Form blob :=
  {| product_type := product_type f; product_name := product_name f;
     sku := sku f; regular_price := regular_price f;
     sale_price := sale_price f; stock_status := stock_status f;
     stock_quantity := stock_quantity f; weight := weight f;
     product_category := product_category f;
     short_description := short_description f;
     full_description := full_description f;
     main_image := main_image f; gallery_images := gallery_images f;
     variation_inputs := vs;
     enable_deep_custom := enable_deep_custom f;
     edition_heading := edition_heading f;
     edition_subtitle := edition_subtitle f; edition_image := edition_image f;
     short_edition_desc := short_edition_desc f; grains := grains f;
     grade := grade f; grain_description := grain_description f;
     shape_inputs := shape_inputs f; enable_laser := enable_laser f;
     laser_price_input := laser_price_input f;
     laser_max_chars_input := laser_max_chars_input f;
     laser_image_input := laser_image_input f |}.

(** A variable product with two variations: one without an image, one with
    an image that is too large. *)
Definition two_sizes : Form blob :=
  with_variations
    [{| var_name := "Size: Short"; var_price := 4500%float; var_sku := "BAT-001-S";
        var_stock := 3; var_image := None |};
     {| var_name := "Size: Long"; var_price := 4800%float; var_sku := "BAT-001-L";
        var_stock := 2; var_image := Some (png "long.png" "RGB" MiB6) |}]
    (form_of VariableProduct "Club Bat" 4500%float None [] false).




(** A simple product with a small main image. *)
Definition bat_with_photo : Form blob :=
  form_of SimpleProduct "Reserve Bat" 4999%float
          (Some (png "front.png" "RGB" KiB200)) [] false.

(** The store after [custom_bat] was saved into an empty one. *)
Definition after_custom_bat : World blob :=
  snd (save_to_database true custom_bat quiet).

(** The workbook exported after [f] was saved into an empty store. *)
Definition workbook_after_saving (f : Form blob) : list Sheet :=
  match excel_export (listed_after_saving f) with
  | Some sheets => sheets
  | None => []
  end.

End Demo.

(** * Properties *)

Section Properties.

Context {bytes image : Type} `{P : Platform bytes image}.

Implicit Types (f : File bytes) (w : World bytes).

(** ** Strings *)

Lemma mem_In (x : string) (xs : list string) :
  Str.mem x xs = true <-> In x xs.
Proof.
  unfold Str.mem. rewrite existsb_exists. split.
  - intros [y [Hy He]]. apply String.eqb_eq in He. now subst.
  - intros H. exists x. split; [assumption | apply String.eqb_refl].
Qed.

Lemma mem_not_In (x : string) (xs : list string) :
  Str.mem x xs = false <-> ~ In x xs.
Proof.
  rewrite <- mem_In. destruct (Str.mem x xs); split; congruence.
Qed.

Lemma append_cancel_l (a x y : string) : a +++ x = a +++ y -> x = y.
Proof.
  induction a as [|c a IH]; simpl; intros H.
  - exact H.
  - injection H as H. now apply IH.
Qed.

Lemma warnings_differ f : too_large_warning f <> invalid_type_warning f.
Proof.
  unfold too_large_warning, invalid_type_warning. intros H.
  apply append_cancel_l in H. apply append_cancel_l in H. discriminate H.
Qed.

(** ** Image validation *)

Lemma validate_image_value f w :
  fst (validate_image (Some f) w) = passes_validation f.
Proof.
  unfold validate_image, passes_validation.
  rewrite Z.ltb_antisym.
  destruct (file_size f <=? 5 * 1024 * 1024);
    destruct (Str.mem (file_type f) allowed_types); reflexivity.
Qed.

(** C2, as the code has it: validation rejects every file larger than 5 MiB
    whatever its declared type, rejects every file whose declared type is not
    one of image/png, image/jpeg, image/jpg, image/webp whatever its size, and
    accepts every file that passes both checks. *)
Theorem validate_image_decision f w :
  (5 * 1024 * 1024 < file_size f -> fst (validate_image (Some f) w) = false)
  /\ (~ In (file_type f) ["image/png"; "image/jpeg"; "image/jpg"; "image/webp"]%string ->
      fst (validate_image (Some f) w) = false)
  /\ (file_size f <= 5 * 1024 * 1024 ->
      In (file_type f) ["image/png"; "image/jpeg"; "image/jpg"; "image/webp"]%string ->
      fst (validate_image (Some f) w) = true).
Proof.
  rewrite validate_image_value. unfold passes_validation.
  change ["image/png"; "image/jpeg"; "image/jpg"; "image/webp"]%string
    with allowed_types.
  repeat split.
  - intros H. apply Z.leb_gt in H. now rewrite H.
  - intros H. apply mem_not_In in H. rewrite H. apply andb_false_r.
  - intros Hs Ht. apply Z.leb_le in Hs. apply mem_In in Ht.
    now rewrite Hs, Ht.
Qed.

Lemma validate_image_too_large f w :
  5 * 1024 * 1024 < file_size f ->
  fst (validate_image (Some f) w) = false
  /\ ui (snd (validate_image (Some f) w))
     = ui w ++ [st_warning_msg (too_large_warning f)].
Proof.
  intros H. apply Z.ltb_lt in H. unfold validate_image. rewrite H.
  split; reflexivity.
Qed.

(** C10: the size is checked before the type.  A file that is both larger
    than 5 MiB and of a type that is not allowed is rejected with the one
    warning that it is too large; the warning about its type, which is a
    different message, is not shown. *)
Theorem size_is_checked_before_type f w :
  5 * 1024 * 1024 < file_size f ->
  ~ In (file_type f) allowed_types ->
  fst (validate_image (Some f) w) = false
  /\ ui (snd (validate_image (Some f) w))
     = ui w ++ [st_warning_msg (too_large_warning f)]
  /\ st_warning_msg (too_large_warning f)
     <> st_warning_msg (invalid_type_warning f).
Proof.
  intros Hsize _.
  destruct (validate_image_too_large f w Hsize) as [Hr Hu].
  repeat split; try assumption.
  intros H. apply (warnings_differ f).
  exact (f_equal (fun m => match m with
                           | st_warning_msg s | st_error_msg s => s
                           end) H).
Qed.

(** ** Compression *)

Lemma to_rgb_if_needed_cases (img : image) :
  ((Image_mode img = "RGBA" \/ Image_mode img = "P")%string ->
   to_rgb_if_needed img = Image_convert img "RGB")
  /\ (Image_mode img <> "RGBA"%string -> Image_mode img <> "P"%string ->
      to_rgb_if_needed img = img).
Proof.
  unfold to_rgb_if_needed. split.
  - intros H.
    assert (Hm : Str.mem (Image_mode img) ["RGBA"; "P"]%string = true).
    { apply mem_In. destruct H as [H | H]; rewrite H; simpl; auto. }
    now rewrite Hm.
  - intros H1 H2.
    assert (Hm : Str.mem (Image_mode img) ["RGBA"; "P"]%string = false).
    { apply mem_not_In. simpl. intros [H | [H | []]]; congruence. }
    now rewrite Hm.
Qed.

(** C3, as the code has it: a file of at most 1 MiB is returned unchanged.
    A larger one is opened, converted to RGB when its mode is RGBA or P, and
    written as JPEG at quality 85; when that goes through, the result is the
    JPEG under the name with the extension [.jpg] and the type [image/jpeg],
    whatever its length (nothing compares it with a threshold).  When opening
    or writing raises, the file is returned as it was given. *)
Theorem compress_image_cases f :
  (file_size f <= 1 * 1024 * 1024 -> compress_image (Some f) 1 = Some f)
  /\ (forall img output,
        1 * 1024 * 1024 < file_size f ->
        Image_open (file_data f) = Some img ->
        Image_save_JPEG (to_rgb_if_needed img) 85 = Some output ->
        compress_image (Some f) 1
        = Some {| file_name := Str.rsplit_head (file_name f) +++ ".jpg";
                  file_type := "image/jpeg";
                  file_size := nbytes output;
                  file_data := output |})
  /\ (forall img,
        ((Image_mode img = "RGBA" \/ Image_mode img = "P")%string ->
         to_rgb_if_needed img = Image_convert img "RGB")
        /\ (Image_mode img <> "RGBA"%string -> Image_mode img <> "P"%string ->
            to_rgb_if_needed img = img))
  /\ (1 * 1024 * 1024 < file_size f ->
      Image_open (file_data f) = None
      \/ (exists img, Image_open (file_data f) = Some img
                      /\ Image_save_JPEG (to_rgb_if_needed img) 85 = None) ->
      compress_image (Some f) 1 = Some f).
Proof.
  unfold compress_image. repeat split.
  - intros H. apply Z.leb_le in H. now rewrite H.
  - intros img output H Ho Hs. apply Z.leb_gt in H. now rewrite H, Ho, Hs.
  - apply to_rgb_if_needed_cases.
  - apply to_rgb_if_needed_cases.
  - intros H [Ho | [img [Ho Hs]]]; apply Z.leb_gt in H; rewrite H, Ho.
    + reflexivity.
    + now rewrite Hs.
Qed.

(** ** Ordering by creation time *)

Lemma insert_desc_perm (r : Row) (rs : list Row) :
  Permutation (insert_desc r rs) (r :: rs).
Proof.
  induction rs as [|r' rs IH]; simpl.
  - apply Permutation_refl.
  - destruct (row_created_at r' <=? row_created_at r).
    + apply Permutation_refl.
    + eapply perm_trans; [apply perm_skip, IH | apply perm_swap].
Qed.

Lemma order_desc_perm (rs : list Row) : Permutation (order_desc rs) rs.
Proof.
  induction rs as [|r rs IH]; simpl.
  - apply perm_nil.
  - eapply perm_trans; [apply insert_desc_perm | now apply perm_skip].
Qed.

Lemma insert_desc_hd (r x : Row) (rs : list Row) :
  newer_or_same x r -> HdRel newer_or_same x rs ->
  HdRel newer_or_same x (insert_desc r rs).
Proof.
  intros Hxr Hx. destruct rs as [|r' rs]; simpl.
  - now constructor.
  - destruct (row_created_at r' <=? row_created_at r).
    + now constructor.
    + constructor. now inversion Hx.
Qed.

Lemma insert_desc_sorted (r : Row) (rs : list Row) :
  Sorted newer_or_same rs -> Sorted newer_or_same (insert_desc r rs).
Proof.
  induction rs as [|r' rs IH]; simpl; intros Hs.
  - repeat constructor.
  - destruct (row_created_at r' <=? row_created_at r) eqn:E.
    + constructor; [assumption |].
      constructor. unfold newer_or_same. now apply Z.leb_le.
    + inversion Hs as [|? ? Hs' Hhd]; subst.
      constructor; [now apply IH |].
      apply insert_desc_hd; [| assumption].
      unfold newer_or_same. apply Z.leb_gt in E. lia.
Qed.

Lemma order_desc_sorted (rs : list Row) :
  StronglySorted newer_or_same (order_desc rs).
Proof.
  apply Sorted_StronglySorted.
  - intros a b c Hab Hbc. unfold newer_or_same in *. lia.
  - induction rs as [|r rs IH]; simpl.
    + constructor.
    + now apply insert_desc_sorted.
Qed.

(** ** Persistence *)

Lemma filter_all {A : Type} (p : A -> bool) (l : list A) :
  (forall a, In a l -> p a = true) -> filter p l = l.
Proof.
  induction l as [|a l IH]; simpl; intros H.
  - reflexivity.
  - rewrite (H a (or_introl eq_refl)). f_equal. apply IH.
    intros b Hb. apply H. now right.
Qed.

Lemma slice_to_length (n : nat) (s : string) :
  Str.len (Str.slice_to n s) = Nat.min n (Str.len s).
Proof.
  revert n. induction s as [|c s IH]; intros n; cbn [Str.slice_to Str.len].
  - now rewrite Nat.min_0_r.
  - destruct (Str.is_continuation c) eqn:E.
    + cbn [Str.len]. rewrite E. apply IH.
    + destruct n as [|n]; cbn [Str.len]; [reflexivity |].
      rewrite E, IH. reflexivity.
Qed.

Lemma slice_to_prefix (n : nat) (s : string) :
  exists rest, s = Str.slice_to n s +++ rest.
Proof.
  revert n. induction s as [|c s IH]; intros n; cbn [Str.slice_to].
  - now exists EmptyString.
  - destruct (Str.is_continuation c).
    + destruct (IH n) as [rest Hr]. exists rest. cbn. now rewrite <- Hr.
    + destruct n as [|n].
      * now exists (String c s).
      * destruct (IH n) as [rest Hr]. exists rest. cbn. now rewrite <- Hr.
Qed.

(** C5: when the store answers, [get_all_products_from_supabase] returns
    the rows of the table newest first: the records come from a
    rearrangement of the table in which every row is at least as new as all
    the rows after it, there are exactly as many records as rows, an empty
    table gives the empty list, and no error is shown. *)
Theorem get_all_products_newest_first w :
  next_call_succeeds w ->
  exists rows,
    fst (get_all_products_from_supabase w) = map row_json rows
    /\ StronglySorted newer_or_same rows
    /\ Permutation rows (table w)
    /\ length (fst (get_all_products_from_supabase w)) = length (table w)
    /\ (table w = [] -> fst (get_all_products_from_supabase w) = [])
    /\ ui (snd (get_all_products_from_supabase w)) = ui w.
Proof.
  unfold next_call_succeeds. intros H.
  exists (order_desc (table w)).
  unfold get_all_products_from_supabase, bind, remote, get_table, ret.
  rewrite H. simpl.
  repeat split.
  - apply order_desc_sorted.
  - apply order_desc_perm.
  - rewrite length_map. apply Permutation_length, order_desc_perm.
  - intros Ht. now rewrite Ht.
Qed.

(** C6: when the store answers, [delete_product_from_supabase] returns
    [True] whether or not a row had the id.  With no such row the table is
    left as it was, and the answer is [True] all the same; no error is
    shown.  The function returns a boolean in every case, so the caller
    never sees an exception. *)
Theorem delete_reports_success (product_id : string) w :
  next_call_succeeds w ->
  fst (delete_product_from_supabase product_id w) = true
  /\ ((forall r, In r (table w) -> row_id r <> product_id) ->
      table (snd (delete_product_from_supabase product_id w)) = table w)
  /\ ui (snd (delete_product_from_supabase product_id w)) = ui w.
Proof.
  unfold next_call_succeeds. intros H.
  unfold delete_product_from_supabase, bind, remote, get_table, set_table, ret.
  rewrite H. simpl. repeat split.
  intros Hno. apply filter_all. intros r Hr.
  apply negb_true_iff, String.eqb_neq. now apply Hno.
Qed.

(** C7, as the code has it: when the request of a persistence operation
    raises, the operation sends nothing further (one request, no retry),
    shows one error made of a fixed label and the first 200 (create) or 100
    (list, search, delete) characters of the fault's text (characters, not
    bytes: the cut falls between two characters), leaves the table as it
    was, and hands its caller the value [None], [[]] or [False]. *)
Theorem persistence_failure_is_reported_once w (msg : string) :
  next_call_raises w msg ->
  (forall product_data,
      reported_once (save_product_to_supabase product_data w) w
        (ReqInsert product_data)
        ("Error saving product: " +++ Str.slice_to 200 msg) PNone)
  /\ reported_once (get_all_products_from_supabase w) w
       ReqSelectAll ("Error fetching products: " +++ Str.slice_to 100 msg) []
  /\ (forall query,
         reported_once (search_products query w) w
           (ReqSearch ("product_name.ilike.%" +++ query +++ "%,sku.ilike.%"
                       +++ query +++ "%"))
           ("Error searching products: " +++ Str.slice_to 100 msg) [])
  /\ (forall product_id,
         reported_once (delete_product_from_supabase product_id w) w
           (ReqDelete product_id)
           ("Error deleting product: " +++ Str.slice_to 100 msg) false)
  /\ Str.len (Str.slice_to 200 msg) = Nat.min 200 (Str.len msg)
  /\ Str.len (Str.slice_to 100 msg) = Nat.min 100 (Str.len msg)
  /\ (exists rest, msg = Str.slice_to 200 msg +++ rest)
  /\ (exists rest, msg = Str.slice_to 100 msg +++ rest).
Proof.
  unfold next_call_raises. intros H.
  unfold reported_once, save_product_to_supabase, get_all_products_from_supabase,
    search_products, delete_product_from_supabase, bind, remote, st_error, ret.
  rewrite H. simpl.
  repeat split; try apply slice_to_prefix; apply slice_to_length.
Qed.

(** ** The save handler *)

Lemma advances_refl w : advances 0 w w.
Proof. repeat split. now exists []. Qed.

Lemma advances_trans (n m : nat) w w1 w2 :
  advances n w w1 -> advances m w1 w2 -> advances (n + m) w w2.
Proof.
  intros (Hf & Ht & o & Hb) (Hf' & Ht' & o' & Hb'). repeat split.
  - rewrite Hf', Hf, skipn_skipn. f_equal. apply Nat.add_comm.
  - congruence.
  - exists (o' ++ o). now rewrite Hb', Hb, app_assoc.
Qed.

Lemma tl_skipn {A : Type} (l : list A) : tl l = skipn 1 l.
Proof. now destruct l. Qed.

Lemma hd_skipn {A : Type} (d : A) (n : nat) (l : list A) :
  hd d (skipn n l) = nth n l d.
Proof.
  revert l. induction n as [|n IH]; intros [|a l]; simpl; try reflexivity.
  apply IH.
Qed.

Lemma compress_image_some f (m : Z) : exists f', compress_image (Some f) m = Some f'.
Proof.
  unfold compress_image.
  destruct (file_size f <=? m * 1024 * 1024); [now exists f |].
  destruct (Image_open (file_data f)) as [img|]; [| now exists f].
  destruct (Image_save_JPEG (to_rgb_if_needed img) 85); eexists; reflexivity.
Qed.

Lemma upload_image_advances (file : option (File bytes)) (folder : string) w :
  advances (upload_requests file) w (snd (upload_image_to_supabase file folder w)).
Proof.
  destruct file as [f|]; [| apply advances_refl].
  unfold upload_image_to_supabase, upload_requests, bind.
  pose proof (validate_image_value f w) as Hv.
  unfold passes_validation in *.
  unfold validate_image in *. rewrite Z.ltb_antisym in *.
  destruct (file_size f <=? 5 * 1024 * 1024);
    destruct (Str.mem (file_type f) allowed_types); cbn -[compress_image];
    try (repeat split; now exists []).
  destruct (compress_image_some f 1) as [f' ->].
  unfold draw_uuid, remote, put_object, st_error, ret, bind. simpl.
  destruct (hd None (faults w)); simpl; repeat split;
    try apply tl_skipn.
  - now exists [].
  - eexists [_]. reflexivity.
Qed.

Lemma bind_run {A B : Type} (m : M A) (k : A -> M B) w :
  bind m k w = k (fst (m w)) (snd (m w)).
Proof. unfold bind. now destruct (m w). Qed.

Lemma upload_present_advances (file : option (File bytes)) (folder : string) w :
  advances (upload_requests file) w (snd (upload_present file folder w)).
Proof.
  destruct file as [f|]; [apply upload_image_advances | apply advances_refl].
Qed.

Lemma upload_gallery_advances (imgs : list (File bytes)) w :
  advances (sum_requests Some imgs) w (snd (upload_gallery imgs w)).
Proof.
  revert w. induction imgs as [|img rest IH]; intros w.
  - apply advances_refl.
  - cbn [upload_gallery sum_requests fold_right].
    rewrite bind_run, bind_run.
    eapply advances_trans; [apply upload_image_advances |].
    apply IH.
Qed.

Lemma upload_variations_advances (vs : list (VariationInput bytes)) w :
  advances (sum_requests var_image vs) w (snd (upload_variations vs w)).
Proof.
  revert w. induction vs as [|v rest IH]; intros w.
  - apply advances_refl.
  - cbn [upload_variations sum_requests fold_right].
    rewrite bind_run, bind_run.
    eapply advances_trans; [apply upload_present_advances |].
    apply IH.
Qed.

Lemma upload_deep_custom_advances (f : Form bytes) w :
  advances (upload_requests (edition_image f) + upload_requests (laser_image f))
           w (snd (upload_deep_custom f w)).
Proof.
  unfold upload_deep_custom. rewrite bind_run, bind_run.
  eapply advances_trans; apply upload_present_advances.
Qed.

Lemma bind_advances {A B : Type} (m : M A) (k : A -> M B) (n1 n2 : nat) w :
  advances n1 w (snd (m w)) ->
  (forall a w1, advances n2 w1 (snd (k a w1))) ->
  advances (n1 + n2) w (snd (bind m k w)).
Proof.
  intros H1 H2. rewrite bind_run.
  eapply advances_trans; [exact H1 | apply H2].
Qed.

Lemma upload_all_advances (f : Form bytes) w :
  advances (form_upload_requests f) w (snd (upload_all f w)).
Proof.
  unfold upload_all, form_upload_requests.
  apply bind_advances; [apply upload_present_advances | intros m w1].
  apply bind_advances; [apply upload_gallery_advances | intros g w2].
  rewrite <- (Nat.add_0_r (if is_bat _ && _ then _ else _)).
  apply bind_advances; [| intros v w3].
  { destruct (is_variable (product_type f));
      [apply upload_variations_advances | apply advances_refl]. }
  apply bind_advances; [| intros d w4; apply advances_refl].
  destruct (is_bat (product_type f) && enable_deep_custom f);
    [apply upload_deep_custom_advances | apply advances_refl].
Qed.

(** What the handler does once the form is accepted: the uploads, then the
    record, then one insert. *)
Lemma save_to_database_accepted (f : Form bytes) w :
  product_name f <> ""%string ->
  PrimFloat.eqb (regular_price f) 0%float = false ->
  let up := upload_all f w in
  let '(main_image_data, gallery_data, variations_data, deep_custom_data) := fst up in
  let t := now (snd up) in
  let record := product_data f main_image_data gallery_data variations_data
                             deep_custom_data (fst t) in
  let saved := save_product_to_supabase record (snd t) in
  save_to_database true f w
  = if Py.truthy (fst saved) then (Saved (fst saved), snd saved)
    else (Failed,
          snd (st_error "❌ Failed to save product. Check error messages above."
                        (snd saved))).
Proof.
  intros Hname Hprice. unfold save_to_database.
  apply String.eqb_neq in Hname. rewrite Hname, Hprice.
  cbn [orb negb]. rewrite bind_run.
  destruct (upload_all f w) as [[[[m g] v] d] w1]. cbn [fst snd].
  rewrite !bind_run.
  destruct (Py.truthy (fst (save_product_to_supabase _ _))); reflexivity.
Qed.

Lemma save_product_result (record : dict) w :
  (next_call_succeeds w
   /\ exists r,
       fst (save_product_to_supabase record w) = PDict (row_json r)
       /\ row_cols r = record
       /\ table (snd (save_product_to_supabase record w)) = table w ++ [r]
       /\ bucket (snd (save_product_to_supabase record w)) = bucket w)
  \/ fst (save_product_to_supabase record w) = PNone.
Proof.
  unfold next_call_succeeds, save_product_to_supabase, db_insert, bind, remote,
    draw_uuid, now, get_table, set_table, st_error, ret.
  cbn [faults rng clock table bucket fst snd].
  destruct (hd None (faults w)); [now right | left].
  split; [reflexivity |].
  eexists {| row_id := _; row_created_at := _; row_cols := _ |}.
  cbn [fst snd row_cols table bucket]. repeat split.
Qed.

(** A record the handler saved: the row appended to the table, and the
    values its fields were built from. *)
Lemma save_to_database_saved (c : bool) (f : Form bytes) w (result : pyval) w' :
  save_to_database c f w = (Saved result, w') ->
  exists r main_image_data gallery_data variations_data deep_custom_data timestamp,
    result = PDict (row_json r)
    /\ table w' = table w ++ [r]
    /\ row_cols r = product_data f main_image_data gallery_data variations_data
                                 deep_custom_data timestamp.
Proof.
  intros H.
  destruct (String.eqb (product_name f) "") eqn:Hname;
    [unfold save_to_database in H; rewrite Hname in H; discriminate H |].
  destruct (PrimFloat.eqb (regular_price f) 0%float) eqn:Hprice;
    [unfold save_to_database in H; rewrite Hname, Hprice in H; discriminate H |].
  destruct c;
    [| unfold save_to_database in H; rewrite Hname, Hprice in H; discriminate H].
  apply String.eqb_neq in Hname.
  pose proof (save_to_database_accepted f w Hname Hprice) as Hrun.
  pose proof (upload_all_advances f w) as (_ & Htable & _).
  destruct (upload_all f w) as [[[[m g] v] d] w1].
  cbn [fst snd] in Hrun, Htable. cbv zeta in Hrun.
  rewrite Hrun in H. clear Hrun.
  set (tw := now w1) in *.
  assert (Htw : table (snd tw) = table w1) by reflexivity.
  clearbody tw.
  set (record := product_data f m g v d (fst tw)) in *.
  destruct (save_product_result record (snd tw))
    as [(_ & r & Hr & Hcols & Ht & _) | Hnone].
  - rewrite Hr in H. cbn [Py.truthy row_json] in H.
    injection H as <- <-.
    exists r, m, g, v, d, (fst tw).
    rewrite Ht, Htw, Htable. repeat split.
    exact Hcols.
  - rewrite Hnone in H. cbn [Py.truthy] in H. discriminate H.
Qed.

Lemma product_data_payloads (f : Form bytes) (m : pyval) (g v : list pyval)
    (d : dict) (t : Z) :
  payloads_by_type (product_type f) (product_data f m g v d t).
Proof.
  unfold payloads_by_type, product_data.
  destruct (product_type f); cbn; eauto.
Qed.

Lemma payloads_at_most_one (t : ProductType) (cols : dict) :
  payloads_by_type t cols -> at_most_one_payload cols.
Proof.
  unfold payloads_by_type, at_most_one_payload.
  destruct t; intros (_ & H1 & H2); auto.
Qed.

(** C1: in every record the handler saves, the discriminant alone decides
    the two payloads.  For a variable product [variations] holds a list and
    [deep_customization] holds [None]; for a cricket bat
    [deep_customization] holds a dict and [variations] holds [None]; for a
    simple product both hold [None].  So at most one of the two is not
    [None], and the side that is not selected is [None] itself, not an empty
    list or dict. *)
Theorem saved_record_payloads_exclusive (c : bool) (f : Form bytes) w
    (result : pyval) w' :
  save_to_database c f w = (Saved result, w') ->
  exists r,
    result = PDict (row_json r)
    /\ table w' = table w ++ [r]
    /\ payloads_by_type (product_type f) (row_cols r)
    /\ at_most_one_payload (row_cols r).
Proof.
  intros H.
  destruct (save_to_database_saved c f w result w' H)
    as (r & m & g & v & d & t & Hr & Ht & Hcols).
  exists r. rewrite Hcols. repeat split; try assumption.
  - apply product_data_payloads.
  - eapply payloads_at_most_one, product_data_payloads.
Qed.

Lemma product_data_optional_numbers (f : Form bytes) (m : pyval)
    (g v : list pyval) (d : dict) (t : Z) :
  optional_number (sale_price f)
    (Py.lookup (product_data f m g v d t) "sale_price")
  /\ optional_number (weight f)
       (Py.lookup (product_data f m g v d t) "weight").
Proof.
  unfold optional_number, product_data, Py.float_truthy. cbn.
  repeat split; intros H; rewrite H; reflexivity.
Qed.

(** C8: in every record the handler saves, a sale price entered as zero is
    stored as [None] and any other sale price as the number itself, and
    likewise for the weight.  (The two number fields always hold a number:
    left untouched they hold zero.) *)
Theorem saved_record_optional_numbers (c : bool) (f : Form bytes) w
    (result : pyval) w' :
  save_to_database c f w = (Saved result, w') ->
  exists r,
    result = PDict (row_json r)
    /\ table w' = table w ++ [r]
    /\ optional_number (sale_price f) (Py.lookup (row_cols r) "sale_price")
    /\ optional_number (weight f) (Py.lookup (row_cols r) "weight").
Proof.
  intros H.
  destruct (save_to_database_saved c f w result w' H)
    as (r & m & g & v & d & t & Hr & Ht & Hcols).
  exists r. rewrite Hcols.
  split; [exact Hr | split; [exact Ht |]].
  apply product_data_optional_numbers.
Qed.





End Properties.

(** ** Spreadsheet export *)

Lemma filter_filter_andb {A : Type} (p q : A -> bool) (l : list A) :
  filter q (filter p l) = filter (fun a => p a && q a) l.
Proof.
  induction l as [|a l IH]; simpl; [reflexivity |].
  destruct (p a); simpl; [destruct (q a) |]; now rewrite IH.
Qed.

Lemma bat_data_rows (bat_products : list dict) (rows : list (list pyval)) :
  bat_data bat_products = Some rows ->
  Forall2 (fun product row => bat_record product (deep_custom_of product) = Some row)
          (filter has_payload bat_products) rows.
Proof.
  revert rows. induction bat_products as [|product rest IH]; simpl; intros rows H.
  - injection H as <-. constructor.
  - unfold has_payload at 1.
    destruct (Py.truthy (deep_custom_of product)).
    + destruct (bat_record product (deep_custom_of product)) as [row|] eqn:E;
        [| discriminate H].
      destruct (bat_data rest) as [rows'|]; [| discriminate H].
      injection H as <-. constructor; [exact E | now apply IH].
    + now apply IH.
Qed.

(** The sheets of an export that went through. *)
Lemma excel_export_sheets (products : list dict) (sheets : list Sheet) :
  excel_export products = Some sheets ->
  exists basic_data rows,
    traverse basic_record products = Some basic_data
    /\ Forall2 (fun product row => bat_record product (deep_custom_of product) = Some row)
               (filter on_bat_sheet products) rows
    /\ sheets = data_frame "Products" basic_columns basic_data
                :: match rows with
                   | [] => []
                   | _ :: _ => [data_frame "Bat Customization" bat_columns rows]
                   end.
Proof.
  unfold excel_export. intros H.
  destruct (traverse basic_record products) as [basic_data|]; [| discriminate H].
  exists basic_data.
  pose proof (bat_data_rows (filter has_bat_type products)) as Hrows.
  rewrite filter_filter_andb in Hrows. fold on_bat_sheet in Hrows.
  change (fun a : dict => has_bat_type a && has_payload a) with on_bat_sheet in Hrows.
  destruct (filter has_bat_type products) as [|b bs] eqn:E.
  - exists []. injection H as <-. repeat split. now apply Hrows.
  - destruct (bat_data (b :: bs)) as [rows|]; [| discriminate H].
    exists rows. specialize (Hrows rows eq_refl).
    destruct rows; injection H as <-; repeat split; exact Hrows.
Qed.

Lemma filter_nil_iff {A : Type} (p : A -> bool) (l : list A) :
  filter p l = [] <-> (forall a, In a l -> p a = false).
Proof.
  induction l as [|a l IH]; simpl.
  - split; [intros _ b [] | reflexivity].
  - destruct (p a) eqn:E; split.
    + discriminate.
    + intros H. specialize (H a (or_introl eq_refl)). congruence.
    + intros H b [<- | Hb]; [exact E | now apply IH].
    + intros H. apply IH. intros b Hb. apply H. now right.
Qed.

(** C9, as the code has it: the workbook of an export that went through
    starts with the sheet [Products].  A second sheet, [Bat Customization],
    with the columns Product Name, SKU, Edition Heading, Grains, Grade, Laser
    Engraving and Laser Price, follows exactly when some record has the
    deep-customization discriminant and a payload that is not empty; it has
    one row for each such record, in order, and for no other record.  With
    no such record, and so whenever no record has the discriminant, the
    workbook is the sheet [Products] alone. *)
Theorem bat_sheet_needs_a_payload (products : list dict) (sheets : list Sheet) :
  excel_export products = Some sheets ->
  exists products_sheet,
    sheet_name products_sheet = "Products"%string
    /\ ((forall p, In p products -> has_bat_type p = false) ->
        sheets = [products_sheet])
    /\ ((forall p, In p products -> on_bat_sheet p = false) ->
        sheets = [products_sheet])
    /\ ((exists p, In p products /\ on_bat_sheet p = true) ->
        exists bat_sheet,
          sheets = [products_sheet; bat_sheet]
          /\ sheet_name bat_sheet = "Bat Customization"%string
          /\ sheet_columns bat_sheet = bat_columns
          /\ Forall2 (fun product row =>
                        bat_record product (deep_custom_of product) = Some row)
                     (filter on_bat_sheet products) (sheet_rows bat_sheet)).
Proof.
  intros H.
  destruct (excel_export_sheets products sheets H)
    as (basic_data & rows & _ & Hrows & ->).
  exists (data_frame "Products" basic_columns basic_data).
  assert (Hnone : (forall p, In p products -> on_bat_sheet p = false) ->
                  rows = []).
  { intros Hno. apply filter_nil_iff in Hno. rewrite Hno in Hrows.
    now inversion Hrows. }
  split; [reflexivity |]. split; [| split].
  - intros Hno. rewrite Hnone; [reflexivity |].
    intros p Hp. unfold on_bat_sheet. now rewrite (Hno p Hp).
  - intros Hno. now rewrite Hnone.
  - intros (p & Hp & Hon).
    assert (Hin : In p (filter on_bat_sheet products)) by now apply filter_In.
    destruct rows as [|row rows].
    + inversion Hrows as [Hnil |]. rewrite <- Hnil in Hin. destruct Hin.
    + eexists. repeat split. exact Hrows.
Qed.

(** * Runs of the model *)

Module Runs.

Import Demo.

(** C2, the claim as written fails: a file declared as [image/jpg], a type
    outside image/png, image/jpeg and image/webp, passes validation. *)
Lemma image_jpg_is_accepted :
  ~ In (file_type jpg_photo) ["image/png"; "image/jpeg"; "image/webp"]%string
  /\ fst (validate_image (Some jpg_photo) quiet) = true.
Proof.
  split; [| reflexivity].
  simpl. intros [H | [H | [H | []]]]; discriminate H.
Qed.

(** C3, the claim as written fails: a 2 MiB file that passes validation as a
    PNG and cannot be opened as an image is returned as it was, not as a
    JPEG; so is a 2 MiB PNG whose mode (LA) cannot be written as JPEG. *)
Lemma large_image_is_not_always_reencoded :
  (1 * 1024 * 1024 < file_size broken_png
   /\ passes_validation broken_png = true
   /\ compress_image (Some broken_png) 1 = Some broken_png
   /\ file_type broken_png <> "image/jpeg"%string)
  /\ (1 * 1024 * 1024 < file_size gray_alpha_png
      /\ passes_validation gray_alpha_png = true
      /\ compress_image (Some gray_alpha_png) 1 = Some gray_alpha_png
      /\ file_type gray_alpha_png <> "image/jpeg"%string).
Proof.
  repeat split; try reflexivity; discriminate.
Qed.

(** C7, the claim as written fails: what the caller of a failed listing
    receives is the empty list, the value an empty store gives, and no
    error value. *)
Lemma failed_listing_looks_like_empty_store :
  next_call_raises unreachable "connection refused"
  /\ table unreachable <> []
  /\ fst (get_all_products_from_supabase unreachable) = []
  /\ next_call_succeeds quiet
  /\ fst (get_all_products_from_supabase quiet) = [].
Proof.
  repeat split; try reflexivity. discriminate.
Qed.

(** C9, the claim as written fails: a cricket bat saved with the
    customization box cleared has the deep-customization discriminant, and
    the workbook exported afterwards has the sheet [Products] alone. *)
Lemma bat_without_payload_gets_no_sheet :
  existsb has_bat_type (listed_after_saving plain_bat) = true
  /\ option_map (map sheet_name) (excel_export (listed_after_saving plain_bat))
     = Some ["Products"%string].
Proof.
  split; vm_compute; reflexivity.
Qed.

Lemma saved_record_payloads_exclusive_witness :
  exists r,
    match fst (save_to_database true custom_bat quiet) with
    | Saved result => result
    | _ => PNone
    end = PDict (row_json r)
    /\ table (snd (save_to_database true custom_bat quiet)) = table quiet ++ [r]
    /\ payloads_by_type CricketBat (row_cols r)
    /\ at_most_one_payload (row_cols r).
Proof.
  apply (saved_record_payloads_exclusive true custom_bat quiet).
  vm_compute. reflexivity.
Defined.

Lemma saved_record_optional_numbers_witness :
  exists r,
    match fst (save_to_database true reserve_bat quiet) with
    | Saved result => result
    | _ => PNone
    end = PDict (row_json r)
    /\ table (snd (save_to_database true reserve_bat quiet)) = table quiet ++ [r]
    /\ optional_number 0%float (Py.lookup (row_cols r) "sale_price")
    /\ optional_number 0%float (Py.lookup (row_cols r) "weight").
Proof.
  apply (saved_record_optional_numbers true reserve_bat quiet).
  vm_compute. reflexivity.
Defined.

Lemma get_all_products_newest_first_witness :
  exists rows,
    fst (get_all_products_from_supabase (with_table three_rows quiet))
    = map row_json rows
    /\ StronglySorted newer_or_same rows
    /\ Permutation rows three_rows
    /\ length (fst (get_all_products_from_supabase (with_table three_rows quiet)))
       = length three_rows
    /\ (three_rows = [] ->
        fst (get_all_products_from_supabase (with_table three_rows quiet)) = [])
    /\ ui (snd (get_all_products_from_supabase (with_table three_rows quiet)))
       = ui quiet.
Proof.
  apply (get_all_products_newest_first (with_table three_rows quiet)).
  reflexivity.
Defined.

Lemma delete_reports_success_witness :
  fst (delete_product_from_supabase "no-such-id" (with_table three_rows quiet))
  = true
  /\ ((forall r, In r three_rows -> row_id r <> "no-such-id"%string) ->
      table (snd (delete_product_from_supabase "no-such-id"
                    (with_table three_rows quiet))) = three_rows)
  /\ ui (snd (delete_product_from_supabase "no-such-id"
                (with_table three_rows quiet))) = ui quiet.
Proof.
  apply (delete_reports_success "no-such-id" (with_table three_rows quiet)).
  reflexivity.
Defined.

Lemma persistence_failure_is_reported_once_witness :
  reported_once (get_all_products_from_supabase unreachable) unreachable
    ReqSelectAll "Error fetching products: connection refused" [].
Proof.
  apply (persistence_failure_is_reported_once unreachable "connection refused").
  reflexivity.
Defined.

Lemma size_is_checked_before_type_witness :
  fst (validate_image (Some big_gif) quiet) = false
  /\ ui (snd (validate_image (Some big_gif) quiet))
     = ui quiet ++ [st_warning_msg (too_large_warning big_gif)]
  /\ st_warning_msg (too_large_warning big_gif)
     <> st_warning_msg (invalid_type_warning big_gif).
Proof.
  apply (size_is_checked_before_type big_gif quiet).
  - reflexivity.
  - simpl. intros [H | [H | [H | [H | []]]]]; discriminate H.
Defined.

Lemma bat_sheet_needs_a_payload_witness :
  exists products_sheet,
    sheet_name products_sheet = "Products"%string
    /\ ((forall p, In p (listed_after_saving custom_bat) -> has_bat_type p = false) ->
        workbook_after_saving custom_bat = [products_sheet])
    /\ ((forall p, In p (listed_after_saving custom_bat) -> on_bat_sheet p = false) ->
        workbook_after_saving custom_bat = [products_sheet])
    /\ ((exists p, In p (listed_after_saving custom_bat) /\ on_bat_sheet p = true) ->
        exists bat_sheet,
          workbook_after_saving custom_bat = [products_sheet; bat_sheet]
          /\ sheet_name bat_sheet = "Bat Customization"%string
          /\ sheet_columns bat_sheet = bat_columns
          /\ Forall2 (fun product row =>
                        bat_record product (deep_custom_of product) = Some row)
                     (filter on_bat_sheet (listed_after_saving custom_bat))
                     (sheet_rows bat_sheet)).
Proof.
  apply (bat_sheet_needs_a_payload (listed_after_saving custom_bat)
                                   (workbook_after_saving custom_bat)).
  vm_compute. reflexivity.
Defined.

(** ** The model on concrete inputs *)

Example split_last_takes_the_extension :
  Str.split_last "photo.final.png" = "png"%string
  /\ Str.rsplit_head "photo.final.png" = "photo.final"%string
  /\ Str.split_last "README" = "README"%string
  /\ Str.rsplit_head "README" = "README"%string.
Proof. repeat split. Qed.

Example rgba_png_is_reencoded_as_rgb_jpeg :
  compress_image (Some (png "side.png" "RGBA" MiB2)) 1
  = Some {| file_name := "side.jpg"; file_type := "image/jpeg";
            file_size := 445644; file_data := Picture "JPEG" "RGB" 445644 |}.
Proof. vm_compute. reflexivity. Qed.

Example small_png_is_left_alone :
  compress_image (Some (png "side.png" "RGBA" KiB200)) 1
  = Some (png "side.png" "RGBA" KiB200).
Proof. vm_compute. reflexivity. Qed.

Example upload_names_the_object_by_folder_uuid_and_extension :
  fst (upload_image_to_supabase (Some (png "side.png" "RGBA" MiB2))
         "products/gallery" quiet)
  = stored_asset "side.jpg" "products/gallery/00000000-0000-4000-8000-0.jpg"
      (get_public_url "products/gallery/00000000-0000-4000-8000-0.jpg").
Proof. vm_compute. reflexivity. Qed.

(** The 6 MiB main image is refused with a warning, the gallery image is
    stored, and the record is saved without a main image. *)
Example big_main_image_is_skipped_and_the_record_saved :
  let run := save_to_database true reserve_bat_big_image quiet in
  match fst run with
  | Saved (PDict d) =>
      Py.lookup d "main_image" = Some PNone
      /\ Py.lookup d "gallery_images"
         = Some (PList [stored_asset "side.png"
                          "products/gallery/00000000-0000-4000-8000-0.png"
                          (get_public_url
                             "products/gallery/00000000-0000-4000-8000-0.png")])
  | _ => False
  end
  /\ length (table (snd run)) = 1%nat
  /\ map obj_path (bucket (snd run))
     = ["products/gallery/00000000-0000-4000-8000-0.png"%string]
  /\ ui (snd run)
     = [st_warning_msg (too_large_warning (png "front.png" "RGB" MiB6))].
Proof. vm_compute. repeat split. Qed.

(** A failed gallery upload after a completed main upload: the main image
    stays in the bucket and in the record, the gallery is empty, the error
    is shown, and the record is saved. *)
Example completed_upload_is_kept_when_a_later_one_fails :
  let f := form_of SimpleProduct "Reserve Bat" 4999%float
             (Some (png "front.png" "RGB" KiB200))
             [png "side.png" "RGB" KiB200] false in
  let run := save_to_database true f
               (with_faults [None; Some "bucket not found"%string] quiet) in
  match fst run with
  | Saved (PDict d) =>
      Py.lookup d "main_image"
      = Some (stored_asset "front.png"
                "products/main/00000000-0000-4000-8000-0.png"
                (get_public_url "products/main/00000000-0000-4000-8000-0.png"))
      /\ Py.lookup d "gallery_images" = Some (PList [])
  | _ => False
  end
  /\ length (table (snd run)) = 1%nat
  /\ map obj_path (bucket (snd run))
     = ["products/main/00000000-0000-4000-8000-0.png"%string]
  /\ ui (snd run) = [st_error_msg "Error uploading side.png: bucket not found"].
Proof. vm_compute. repeat split. Qed.

(** The scenario of the specification: create, list, delete, list. *)
Example create_list_delete_list :
  let w1 := snd (save_to_database true reserve_bat quiet) in
  let listed := fst (get_all_products_from_supabase w1) in
  let w2 := snd (delete_product_from_supabase "00000000-0000-4000-8000-0" w1) in
  map (fun p => (Py.get_none p "product_name", Py.get_none p "regular_price")) listed
  = [(PStr "Reserve Bat", PFloat 4999%float)]
  /\ fst (delete_product_from_supabase "00000000-0000-4000-8000-0" w1) = true
  /\ fst (get_all_products_from_supabase w2) = [].
Proof. vm_compute. repeat split. Qed.

Example rows_come_back_newest_first :
  map row_id (order_desc three_rows) = ["c"; "b"; "a"]%string.
Proof. reflexivity. Qed.

Example bat_with_payload_gets_the_second_sheet :
  map (fun s => (sheet_name s, sheet_rows s)) (workbook_after_saving custom_bat)
  = [("Products"%string,
      [[PStr "00000000-0000-4000-8000-0"; PStr "Reserve Edition Bat";
        PStr "Cricket Bat (Deep Customization)"; PStr "BAT-001";
        PFloat 9000%float; PNone; PStr "In Stock"; PInt 0; PStr ""; PNone;
        PStr "2024-01-01"]]);
     ("Bat Customization"%string,
      [[PStr "Reserve Edition Bat"; PStr "BAT-001"; PStr "Reserve Edition";
        PStr "6-8 Grains"; PStr "Grade A+"; PStr "Yes"; PFloat 5.5%float]])].
Proof. vm_compute. reflexivity. Qed.

Example long_fault_text_is_cut_at_100_characters :
  let fault := "0123456789012345678901234567890123456789012345678901234567890123456789012345678901234567890123456789-and-more"%string in
  ui (snd (delete_product_from_supabase "x" (with_faults [Some fault] quiet)))
  = [st_error_msg "Error deleting product: 0123456789012345678901234567890123456789012345678901234567890123456789012345678901234567890123456789"].
Proof. vm_compute. reflexivity. Qed.

End Runs.

(** * Further properties *)

Section FurtherProperties.

Context {bytes image : Type} `{P : Platform bytes image}.

Implicit Types (f : File bytes) (w : World bytes).

(** ** File names *)


Lemma has_dot_append (h t : string) : has_dot (h +++ "." +++ t) = true.
Proof.
  induction h as [|c h IH]; simpl in *; [reflexivity |].
  rewrite IH. apply orb_true_r.
Qed.

(** The two cuts of a name agree: both find the last dot, or neither finds
    one. *)
Lemma cuts_at_last_dot (s : string) :
  match Str.before_last_dot s, Str.after_last_dot s with
  | Some h, Some t => s = h +++ "." +++ t /\ has_dot t = false
  | None, None => has_dot s = false
  | _, _ => False
  end.
Proof.
  induction s as [|c s IH]; simpl; [reflexivity |].
  destruct (Str.before_last_dot s) as [h|], (Str.after_last_dot s) as [t|];
    try contradiction.
  - destruct IH as [-> Ht]. split; [reflexivity | exact Ht].
  - destruct (Ascii.eqb c ".") eqn:E.
    + apply Ascii.eqb_eq in E. subst c. split; [reflexivity | exact IH].
    + simpl. exact IH.
Qed.

(** X1: a file name is cut at its last dot.  With a dot in it, the name is
    its head, a dot and its extension, and the extension has no dot; without
    one, both the head and the extension are the whole name. *)
Theorem name_is_cut_at_its_last_dot (s : string) :
  (has_dot s = true ->
   s = Str.rsplit_head s +++ "." +++ Str.split_last s
   /\ has_dot (Str.split_last s) = false)
  /\ (has_dot s = false -> Str.rsplit_head s = s /\ Str.split_last s = s).
Proof.
  pose proof (cuts_at_last_dot s) as H.
  unfold Str.rsplit_head, Str.split_last.
  destruct (Str.before_last_dot s) as [h|], (Str.after_last_dot s) as [t|];
    try contradiction.
  - destruct H as [Hs Ht]. split; [intros _; now split |].
    intros Hno. rewrite Hs, has_dot_append in Hno. discriminate Hno.
  - split; [intros Hd; congruence | intros _; now split].
Qed.


(** ** Uploads *)

Lemma validate_image_accepts f w :
  passes_validation f = true -> validate_image (Some f) w = (true, w).
Proof.
  unfold passes_validation, validate_image. rewrite Z.ltb_antisym.
  intros H. apply andb_true_iff in H as [Hs Ht]. now rewrite Hs, Ht.
Qed.

Lemma validate_image_rejects f w :
  passes_validation f = false ->
  exists shown,
    (shown = too_large_warning f \/ shown = invalid_type_warning f)
    /\ validate_image (Some f) w
       = (false,
          {| bucket := bucket w; table := table w; faults := faults w;
             trace := trace w; rng := rng w; clock := clock w;
             ui := ui w ++ [st_warning_msg shown] |}).
Proof.
  unfold passes_validation, validate_image. rewrite Z.ltb_antisym.
  destruct (file_size f <=? 5 * 1024 * 1024);
    destruct (Str.mem (file_type f) allowed_types); try discriminate; intros _;
    eexists; (split; [| reflexivity]); auto.
Qed.

Lemma upload_rejected_run f (folder : string) w :
  passes_validation f = false ->
  exists shown,
    (shown = too_large_warning f \/ shown = invalid_type_warning f)
    /\ upload_image_to_supabase (Some f) folder w
       = (PNone,
          {| bucket := bucket w; table := table w; faults := faults w;
             trace := trace w; rng := rng w; clock := clock w;
             ui := ui w ++ [st_warning_msg shown] |}).
Proof.
  intros H. destruct (validate_image_rejects f w H) as (shown & Hshown & Hv).
  exists shown. split; [exact Hshown |].
  unfold upload_image_to_supabase, bind. now rewrite Hv.
Qed.


(** The upload of a file that passes validation, step by step. *)
Lemma upload_image_run f (f' : File bytes) (folder : string) w :
  passes_validation f = true ->
  compress_image (Some f) 1 = Some f' ->
  let path := folder +++ "/" +++ uuid4 (rng w) +++ "."
              +++ Str.split_last (file_name f') in
  upload_image_to_supabase (Some f) folder w
  = match hd None (faults w) with
    | None =>
        (stored_asset (file_name f') path (get_public_url path),
         {| bucket := {| obj_path := path; obj_content_type := file_type f';
                         obj_bytes := read_after_compress f 1 |} :: bucket w;
            table := table w; faults := tl (faults w);
            trace := trace w ++ [ReqUpload path (file_type f')];
            rng := S (rng w); clock := clock w; ui := ui w |})
    | Some msg =>
        (PNone,
         {| bucket := bucket w; table := table w; faults := tl (faults w);
            trace := trace w ++ [ReqUpload path (file_type f')];
            rng := S (rng w); clock := clock w;
            ui := ui w ++ [st_error_msg ("Error uploading " +++ file_name f'
                                         +++ ": " +++ Str.slice_to 100 msg)] |})
    end.
Proof.
  intros Hv Hc. cbv zeta. unfold upload_image_to_supabase, bind.
  rewrite (validate_image_accepts f w Hv). cbn [negb]. rewrite Hc.
  unfold draw_uuid, remote, put_object, st_error, ret. cbn [rng faults].
  destruct (hd None (faults w)); reflexivity.
Qed.







(** X20: an upload that raises is reported once and stores nothing.  For a
    file that passes validation, when the upload request raises the function
    returns [None] after that one request, the bucket is as it was, and one
    error is shown: the name of the file that came out of compression (the
    [.jpg] name when it was re-encoded) and the first 100 characters of the
    fault. *)
Theorem failed_upload_is_reported_once f (folder msg : string) w :
  passes_validation f = true ->
  next_call_raises w msg ->
  exists f' path,
    compress_image (Some f) 1 = Some f'
    /\ fst (upload_image_to_supabase (Some f) folder w) = PNone
    /\ trace (snd (upload_image_to_supabase (Some f) folder w))
       = trace w ++ [ReqUpload path (file_type f')]
    /\ faults (snd (upload_image_to_supabase (Some f) folder w)) = tl (faults w)
    /\ bucket (snd (upload_image_to_supabase (Some f) folder w)) = bucket w
    /\ table (snd (upload_image_to_supabase (Some f) folder w)) = table w
    /\ ui (snd (upload_image_to_supabase (Some f) folder w))
       = ui w ++ [st_error_msg ("Error uploading " +++ file_name f' +++ ": "
                                +++ Str.slice_to 100 msg)].
Proof.
  unfold next_call_raises. intros Hv Hraise.
  destruct (compress_image_some f 1) as [f' Hc].
  pose proof (upload_image_run f f' folder w Hv Hc) as Hrun. cbv zeta in Hrun.
  rewrite Hrun, Hraise. cbn [fst snd trace faults bucket table ui].
  exists f'. eexists. repeat split. exact Hc.
Qed.

(** ** The upload steps of the save handler *)

(** A fact that holds of no step at all, adds up along steps and holds of
    one upload holds of the four upload steps together. *)
Section UploadStage.

Variable R : nat -> World bytes -> World bytes -> Prop.

Hypothesis R_refl : forall w, R 0 w w.

Hypothesis R_trans :
  forall (n m : nat) w w1 w2, R n w w1 -> R m w1 w2 -> R (n + m) w w2.

Hypothesis R_upload :
  forall (file : option (File bytes)) (folder : string) w,
    R (upload_requests file) w (snd (upload_image_to_supabase file folder w)).

Lemma stage_bind {A B : Type} (m : M A) (k : A -> M B) (n1 n2 : nat) w :
  R n1 w (snd (m w)) ->
  (forall a w1, R n2 w1 (snd (k a w1))) ->
  R (n1 + n2) w (snd (bind m k w)).
Proof.
  intros H1 H2. rewrite bind_run.
  eapply R_trans; [exact H1 | apply H2].
Qed.

Lemma stage_present (file : option (File bytes)) (folder : string) w :
  R (upload_requests file) w (snd (upload_present file folder w)).
Proof.
  destruct file as [f|]; [apply R_upload | apply R_refl].
Qed.

Lemma stage_gallery (imgs : list (File bytes)) w :
  R (sum_requests Some imgs) w (snd (upload_gallery imgs w)).
Proof.
  revert w. induction imgs as [|img rest IH]; intros w; [apply R_refl |].
  cbn [upload_gallery sum_requests fold_right].
  apply stage_bind; [apply R_upload | intros a w1].
  rewrite <- (Nat.add_0_r (fold_right _ _ _)).
  apply stage_bind; [apply IH | intros; apply R_refl].
Qed.

Lemma stage_variations (vs : list (VariationInput bytes)) w :
  R (sum_requests var_image vs) w (snd (upload_variations vs w)).
Proof.
  revert w. induction vs as [|v rest IH]; intros w; [apply R_refl |].
  cbn [upload_variations sum_requests fold_right].
  apply stage_bind; [apply stage_present | intros a w1].
  rewrite <- (Nat.add_0_r (fold_right _ _ _)).
  apply stage_bind; [apply IH | intros; apply R_refl].
Qed.

Lemma stage_deep_custom (f : Form bytes) w :
  R (upload_requests (edition_image f) + upload_requests (laser_image f))
    w (snd (upload_deep_custom f w)).
Proof.
  unfold upload_deep_custom.
  apply stage_bind; [apply stage_present | intros a w1].
  rewrite <- (Nat.add_0_r (upload_requests (laser_image f))).
  apply stage_bind; [apply stage_present | intros; apply R_refl].
Qed.

Lemma stage_all (f : Form bytes) w :
  R (form_upload_requests f) w (snd (upload_all f w)).
Proof.
  unfold upload_all, form_upload_requests.
  apply stage_bind; [apply stage_present | intros m w1].
  apply stage_bind; [apply stage_gallery | intros g w2].
  rewrite <- (Nat.add_0_r (if is_bat _ && _ then _ else _)).
  apply stage_bind; [| intros v w3].
  { destruct (is_variable (product_type f));
      [apply stage_variations | apply R_refl]. }
  apply stage_bind; [| intros d w4; apply R_refl].
  destruct (is_bat (product_type f) && enable_deep_custom f);
    [apply stage_deep_custom | apply R_refl].
Qed.

End UploadStage.

Lemma upload_image_cases (file : option (File bytes)) (folder : string) w :
  (upload_requests file = 0%nat
   /\ trace (snd (upload_image_to_supabase file folder w)) = trace w
   /\ clock (snd (upload_image_to_supabase file folder w)) = clock w
   /\ table (snd (upload_image_to_supabase file folder w)) = table w)
  \/ (upload_requests file = 1%nat
      /\ (exists path content_type,
             trace (snd (upload_image_to_supabase file folder w))
             = trace w ++ [ReqUpload path content_type])
      /\ clock (snd (upload_image_to_supabase file folder w)) = clock w
      /\ table (snd (upload_image_to_supabase file folder w)) = table w).
Proof.
  destruct file as [f|]; [| left; repeat split].
  unfold upload_requests. destruct (passes_validation f) eqn:Hv.
  - right. destruct (compress_image_some f 1) as [f' Hc].
    pose proof (upload_image_run f f' folder w Hv Hc) as Hrun.
    cbv zeta in Hrun. rewrite Hrun.
    destruct (hd None (faults w)); cbn [snd trace clock table];
      repeat split; eauto.
  - left. destruct (upload_rejected_run f folder w Hv) as (shown & _ & ->).
    repeat split.
Qed.

Lemma upload_all_sends_uploads (f : Form bytes) w :
  sent_uploads (form_upload_requests f) w (snd (upload_all f w)).
Proof.
  apply (stage_all sent_uploads).
  - intros w0. exists []. now rewrite app_nil_r.
  - intros n m w0 w1 w2 (u1 & H1 & F1 & L1) (u2 & H2 & F2 & L2).
    exists (u1 ++ u2). rewrite H2, H1, app_assoc, forallb_app, F1, F2.
    rewrite length_app, L1, L2. repeat split.
  - intros file folder w0.
    destruct (upload_image_cases file folder w0)
      as [(Hn & Ht & _) | (Hn & (path & ct & Ht) & _)]; rewrite Hn.
    + exists []. now rewrite app_nil_r.
    + exists [ReqUpload path ct]. repeat split. exact Ht.
Qed.

Lemma upload_all_keeps_rows (f : Form bytes) w :
  clock (snd (upload_all f w)) = clock w
  /\ table (snd (upload_all f w)) = table w.
Proof.
  apply (stage_all (fun _ w0 w1 => clock w1 = clock w0 /\ table w1 = table w0)).
  - intros w0. now split.
  - intros _ _ w0 w1 w2 [Hc1 Ht1] [Hc2 Ht2]. split; congruence.
  - intros file folder w0.
    destruct (upload_image_cases file folder w0)
      as [(_ & _ & Hc & Ht) | (_ & _ & Hc & Ht)]; now split.
Qed.

(** ** What the upload steps return *)













(** ** The save handler, step by step *)

Lemma save_to_database_run (f : Form bytes) w :
  product_name f <> ""%string ->
  PrimFloat.eqb (regular_price f) 0%float = false ->
  let w1 := snd (upload_all f w) in
  let '(main_image_data, gallery_data, variations_data, deep_custom_data) :=
    fst (upload_all f w) in
  let record := product_data f main_image_data gallery_data variations_data
                             deep_custom_data (clock w1) in
  let r := {| row_id := uuid4 (rng w1); row_created_at := clock w1 + 1;
              row_cols := record |} in
  save_to_database true f w
  = match hd None (faults w1) with
    | None =>
        (Saved (PDict (row_json r)),
         {| bucket := bucket w1; table := table w1 ++ [r];
            faults := tl (faults w1); trace := trace w1 ++ [ReqInsert record];
            rng := S (rng w1); clock := clock w1 + 1 + 1; ui := ui w1 |})
    | Some msg =>
        (Failed,
         {| bucket := bucket w1; table := table w1;
            faults := tl (faults w1); trace := trace w1 ++ [ReqInsert record];
            rng := rng w1; clock := clock w1 + 1;
            ui := (ui w1
                   ++ [st_error_msg ("Error saving product: "
                                     +++ Str.slice_to 200 msg)])
                  ++ [st_error_msg
                        "❌ Failed to save product. Check error messages above."] |})
    end.
Proof.
  intros Hname Hprice. unfold save_to_database.
  apply String.eqb_neq in Hname. rewrite Hname, Hprice. cbn [orb negb].
  unfold bind at 1.
  destruct (upload_all f w) as [[[[m g] v] d] w1]. cbn [fst snd].
  unfold save_product_to_supabase, db_insert, bind, now, remote, draw_uuid,
    get_table, set_table, st_error, ret.
  cbn [faults rng clock table bucket trace ui fst snd].
  destruct (hd None (faults w1)); reflexivity.
Qed.

Lemma saved_means_accepted (c : bool) (f : Form bytes) w (result : pyval) w' :
  save_to_database c f w = (Saved result, w') ->
  c = true /\ product_name f <> ""%string
  /\ PrimFloat.eqb (regular_price f) 0%float = false.
Proof.
  unfold save_to_database. intros H.
  destruct (String.eqb (product_name f) "") eqn:Hname; [discriminate H |].
  destruct (PrimFloat.eqb (regular_price f) 0%float); [discriminate H |].
  destruct c; [| discriminate H].
  apply String.eqb_neq in Hname. now repeat split.
Qed.





(** X5: a form that is refused leaves no trace.  The handler refuses a form
    exactly when the name is empty, the price is zero or the store is not
    connected; it then shows one error and sends nothing: the requests, the
    table and the bucket are as they were, whatever images were selected. *)
Theorem refused_form_sends_nothing (c : bool) (f : Form bytes) w :
  (fst (save_to_database c f w) = Blocked
   <-> (product_name f = ""%string
        \/ PrimFloat.eqb (regular_price f) 0%float = true
        \/ c = false))
  /\ (fst (save_to_database c f w) = Blocked ->
      trace (snd (save_to_database c f w)) = trace w
      /\ table (snd (save_to_database c f w)) = table w
      /\ bucket (snd (save_to_database c f w)) = bucket w
      /\ exists shown,
           ui (snd (save_to_database c f w)) = ui w ++ [st_error_msg shown]).
Proof.
  destruct (String.eqb (product_name f) "") eqn:Hname.
  { unfold save_to_database. rewrite Hname. cbn.
    apply String.eqb_eq in Hname. repeat split; eauto. }
  destruct (PrimFloat.eqb (regular_price f) 0%float) eqn:Hprice.
  { unfold save_to_database. rewrite Hname, Hprice. cbn.
    repeat split; eauto. }
  destruct c.
  2:{ unfold save_to_database. rewrite Hname, Hprice. cbn.
      repeat split; eauto. }
  apply String.eqb_neq in Hname.
  pose proof (save_to_database_run f w Hname Hprice) as Hrun. cbv zeta in Hrun.
  destruct (fst (upload_all f w)) as [[[m g] v] d].
  rewrite Hrun. destruct (hd None (faults (snd (upload_all f w)))); cbn [fst].
  - split; [split; [discriminate | intros [H | [H | H]]; congruence] | discriminate].
  - split; [split; [discriminate | intros [H | [H | H]]; congruence] | discriminate].
Qed.

(** X6: the insert is the last request.  For a form that is accepted the
    handler sends exactly the upload requests of the images that pass
    validation, and after all of them one insert, whatever the outcomes; the
    record it sends carries the name that was entered. *)
Theorem insert_follows_the_uploads (f : Form bytes) w :
  product_name f <> ""%string ->
  PrimFloat.eqb (regular_price f) 0%float = false ->
  exists ups record,
    trace (snd (save_to_database true f w)) = trace w ++ ups ++ [ReqInsert record]
    /\ forallb is_upload ups = true
    /\ length ups = form_upload_requests f
    /\ Py.lookup record "product_name" = Some (PStr (product_name f)).
Proof.
  intros Hname Hprice.
  pose proof (save_to_database_run f w Hname Hprice) as Hrun. cbv zeta in Hrun.
  destruct (upload_all_sends_uploads f w) as (ups & Ht & Hup & Hlen).
  destruct (fst (upload_all f w)) as [[[m g] v] d].
  exists ups. eexists. rewrite Hrun.
  destruct (hd None (faults (snd (upload_all f w)))); cbn [snd trace];
    rewrite Ht, <- app_assoc; repeat split; assumption.
Qed.

(** X7: uploads are not undone when the insert fails.  For an accepted form
    whose insert raises, the handler reports failure with two errors (the
    fault cut at 200 characters, then the general message), the table is as
    it was, and everything the upload steps put into the bucket is still
    there, with no record that refers to it. *)
Theorem failed_insert_keeps_the_uploads (f : Form bytes) w (msg : string) :
  product_name f <> ""%string ->
  PrimFloat.eqb (regular_price f) 0%float = false ->
  nth (form_upload_requests f) (faults w) None = Some msg ->
  fst (save_to_database true f w) = Failed
  /\ table (snd (save_to_database true f w)) = table w
  /\ bucket (snd (save_to_database true f w)) = bucket (snd (upload_all f w))
  /\ (exists objs, bucket (snd (save_to_database true f w)) = objs ++ bucket w)
  /\ ui (snd (save_to_database true f w))
     = ui (snd (upload_all f w))
       ++ [st_error_msg ("Error saving product: " +++ Str.slice_to 200 msg);
           st_error_msg "❌ Failed to save product. Check error messages above."].
Proof.
  intros Hname Hprice Hfault.
  pose proof (save_to_database_run f w Hname Hprice) as Hrun. cbv zeta in Hrun.
  destruct (upload_all_advances f w) as (Hfaults & Htable & objs & Hbucket).
  destruct (fst (upload_all f w)) as [[[m g] v] d].
  rewrite Hrun, Hfaults, hd_skipn, Hfault. cbn [fst snd table bucket ui].
  rewrite <- app_assoc. repeat split; try assumption.
  now exists objs.
Qed.

(** A column that is not typed [DECIMAL(10,2)] reads back as it was sent. *)
Lemma lookup_as_stored (cols : dict) (k : string) :
  Str.mem k decimal_columns = false ->
  Py.lookup (as_stored cols) k = Py.lookup cols k.
Proof.
  intros Hk. induction cols as [|[k' v] cols IH]; [reflexivity |].
  cbn [as_stored map fst snd] in *.
  destruct (String.eqb_spec k' k) as [->|Hne].
  - destruct v; cbn [Py.lookup]; rewrite ?Hk; cbn [Py.lookup];
      now rewrite String.eqb_refl.
  - assert (E : (k' =? k)%string = false) by now apply String.eqb_neq.
    destruct v; cbn [Py.lookup]; rewrite ?E; try exact IH.
    destruct (Str.mem k' decimal_columns); cbn [Py.lookup]; now rewrite E.
Qed.


Lemma lookup_row_json (r : Row) (k : string) :
  k <> "id"%string -> k <> "created_at"%string ->
  Str.mem k decimal_columns = false ->
  Py.lookup (row_json r) k = Py.lookup (row_cols r) k.
Proof.
  intros H1 H2 H3. unfold row_json. cbn [Py.lookup].
  destruct (String.eqb_spec "id" k) as [E|_]; [now subst |].
  destruct (String.eqb_spec "created_at" k) as [E|_]; [now subst |].
  now apply lookup_as_stored.
Qed.


Lemma order_desc_newest_last (r : Row) (rs : list Row) :
  Forall (fun r' => row_created_at r' < row_created_at r) rs ->
  order_desc (rs ++ [r]) = r :: order_desc rs.
Proof.
  induction rs as [|a rs IH]; intros H; [reflexivity |].
  inversion H as [|? ? Ha Hrs]; subst.
  cbn [app order_desc]. rewrite (IH Hrs). cbn [insert_desc].
  assert (E : (row_created_at r <=? row_created_at a) = false)
    by (apply Z.leb_gt; exact Ha).
  now rewrite E.
Qed.

Lemma listing_when_answered w :
  next_call_succeeds w ->
  get_all_products_from_supabase w
  = (map row_json (order_desc (table w)),
     {| bucket := bucket w; table := table w; faults := tl (faults w);
        trace := trace w ++ [ReqSelectAll]; rng := rng w; clock := clock w;
        ui := ui w |}).
Proof.
  unfold next_call_succeeds. intros H.
  unfold get_all_products_from_supabase, bind, remote, get_table, ret.
  now rewrite H.
Qed.


(** A save that went through, in terms of the upload steps. *)
Lemma saved_row (c : bool) (f : Form bytes) w (result : pyval) w' :
  save_to_database c f w = (Saved result, w') ->
  exists r main_image_data gallery_data variations_data deep_custom_data,
    fst (upload_all f w)
    = (main_image_data, gallery_data, variations_data, deep_custom_data)
    /\ result = PDict (row_json r)
    /\ table w' = table w ++ [r]
    /\ row_cols r = product_data f main_image_data gallery_data variations_data
                                 deep_custom_data (clock w)
    /\ row_created_at r = clock w + 1
    /\ clock w' = clock w + 1 + 1.
Proof.
  intros H. destruct (saved_means_accepted c f w result w' H) as (-> & Hn & Hp).
  pose proof (save_to_database_run f w Hn Hp) as Hrun. cbv zeta in Hrun.
  destruct (upload_all_keeps_rows f w) as [Hclock Htable].
  destruct (fst (upload_all f w)) as [[[m g] v] d].
  rewrite Hrun in H. clear Hrun.
  destruct (hd None (faults (snd (upload_all f w)))); [discriminate H |].
  injection H as <- <-.
  eexists {| row_id := _; row_created_at := _; row_cols := _ |}, m, g, v, d.
  cbn [table clock row_cols row_created_at]. rewrite Hclock, Htable.
  repeat split.
Qed.

Lemma created_before_later (rows : list Row) (t t' : Z) :
  t <= t' ->
  Forall (fun r => row_created_at r < t) rows ->
  Forall (fun r => row_created_at r < t') rows.
Proof.
  intros Ht H. eapply Forall_impl; [| exact H]. cbn. intros r Hr. lia.
Qed.

(** X10: the record just saved heads the list.  When every row was created
    before the current instant, the first record of a listing that follows a
    save is the record that was saved. *)
Theorem saved_record_is_listed_first (c : bool) (f : Form bytes) w
    (result : pyval) w' :
  created_before_now w ->
  save_to_database c f w = (Saved result, w') ->
  next_call_succeeds w' ->
  exists d rest,
    result = PDict d
    /\ fst (get_all_products_from_supabase w') = d :: rest.
Proof.
  intros Hw H Hok.
  destruct (saved_row c f w result w' H)
    as (r & m & g & v & d & _ & Hr & Ht & _ & Hcreated & _).
  rewrite (listing_when_answered w' Hok). cbn [fst].
  rewrite Ht, order_desc_newest_last.
  - exists (row_json r), (map row_json (order_desc (table w))). now split.
  - rewrite Hcreated. apply (created_before_later _ (clock w)); [lia | exact Hw].
Qed.

Lemma upload_all_parts (f : Form bytes) w :
  exists w2 w3,
    fst (upload_all f w)
    = (fst (upload_present (main_image f) "products/main" w),
       fst (upload_gallery (gallery_images f)
              (snd (upload_present (main_image f) "products/main" w))),
       (if is_variable (product_type f)
        then fst (upload_variations (variation_inputs f) w2) else []),
       (if is_bat (product_type f) && enable_deep_custom f
        then fst (upload_deep_custom f w3) else [])).
Proof.
  set (w2 := snd (upload_gallery (gallery_images f)
                    (snd (upload_present (main_image f) "products/main" w)))).
  exists w2,
    (snd ((if is_variable (product_type f)
           then upload_variations (variation_inputs f) else ret []) w2)).
  unfold upload_all. rewrite !bind_run. fold w2.
  destruct (is_variable (product_type f));
    destruct (is_bat (product_type f) && enable_deep_custom f); reflexivity.
Qed.




Lemma blocked_keeps_table (c : bool) (f : Form bytes) w w' :
  save_to_database c f w = (Blocked, w') -> table w' = table w.
Proof.
  intros H.
  destruct (String.eqb (product_name f) "") eqn:Hname;
    [unfold save_to_database in H; rewrite Hname in H; cbn in H;
     now injection H as <- |].
  destruct (PrimFloat.eqb (regular_price f) 0%float) eqn:Hprice;
    [unfold save_to_database in H; rewrite Hname, Hprice in H; cbn in H;
     now injection H as <- |].
  destruct c;
    [| unfold save_to_database in H; rewrite Hname, Hprice in H; cbn in H;
       now injection H as <-].
  apply String.eqb_neq in Hname.
  pose proof (save_to_database_run f w Hname Hprice) as Hrun. cbv zeta in Hrun.
  destruct (fst (upload_all f w)) as [[[m g] v] d].
  rewrite Hrun in H.
  destruct (hd None (faults (snd (upload_all f w)))); discriminate H.
Qed.

(** X12: the table holds only records of the handler.  If every row of the
    table holds a record the save handler builds, this is still so after the
    handler ran, whatever it did, and after a delete. *)
Theorem table_holds_handler_records w :
  Forall app_made (table w) ->
  (forall (c : bool) (f : Form bytes),
      Forall app_made (table (snd (save_to_database c f w))))
  /\ (forall product_id,
         Forall app_made (table (snd (delete_product_from_supabase product_id w)))).
Proof.
  intros Hw. split.
  - intros c f.
    destruct (save_to_database c f w) as [[| result |] w'] eqn:H.
    + cbn [snd]. rewrite (blocked_keeps_table c f w w' H). exact Hw.
    + destruct (saved_row c f w result w' H)
        as (r & m & g & v & d & Hup & _ & Ht & Hcols & _).
      cbn [snd]. rewrite Ht. apply Forall_app. split; [exact Hw |].
      constructor; [| constructor].
      exists f, m, g, v, d, (clock w). split; [exact Hcols |].
      destruct (upload_all_parts f w) as (w2 & w3 & Hparts).
      rewrite Hparts in Hup. injection Hup as _ _ _ Hd.
      destruct (is_bat (product_type f) && enable_deep_custom f);
        [right | now left].
      rewrite <- Hd. unfold upload_deep_custom. rewrite !bind_run. cbn [ret fst].
      eexists. eexists. reflexivity.
    + cbn [snd].
      destruct (String.eqb (product_name f) "") eqn:Hname;
        [unfold save_to_database in H; rewrite Hname in H; discriminate H |].
      destruct (PrimFloat.eqb (regular_price f) 0%float) eqn:Hprice;
        [unfold save_to_database in H; rewrite Hname, Hprice in H; discriminate H |].
      destruct c;
        [| unfold save_to_database in H; rewrite Hname, Hprice in H; discriminate H].
      apply String.eqb_neq in Hname.
      pose proof (save_to_database_run f w Hname Hprice) as Hrun.
      cbv zeta in Hrun.
      destruct (upload_all_keeps_rows f w) as [_ Htable].
      destruct (fst (upload_all f w)) as [[[m g] v] d].
      rewrite Hrun in H.
      destruct (hd None (faults (snd (upload_all f w)))); [| discriminate H].
      injection H as <-. cbn [table]. now rewrite Htable.
  - intros product_id.
    unfold delete_product_from_supabase, bind, remote, get_table, set_table,
      st_error, ret.
    destruct (hd None (faults w)); cbn [snd table]; [exact Hw |].
    apply Forall_forall. intros r Hr. apply filter_In in Hr as [Hr _].
    revert r Hr. now apply Forall_forall.
Qed.

(** ** Search and delete *)

Lemma count_append (c : ascii) (s1 s2 : string) :
  Str.count c (s1 +++ s2) = (Str.count c s1 + Str.count c s2)%nat.
Proof.
  induction s1 as [|a s1 IH]; [reflexivity |].
  cbn [String.append Str.count]. rewrite IH. apply Nat.add_assoc.
Qed.

(** X13: the search pastes the query, as typed, into the filter it sends.
    The search sends one request, whose filter is the query between
    [product_name.ilike.%] and [%,sku.ilike.%] and again before the last [%],
    with nothing escaped: the two conditions of the filter are separated by
    one comma, and every comma typed in the query adds two more to the text.
    An answered search returns what the store selects for that text among
    the rows as it holds them, and shows nothing; a search that raises
    returns the empty list and shows one error with the first 100 characters
    of the fault.  The table and the bucket are as they were. *)
Theorem search_pastes_the_query_as_typed (query : string) w :
  trace (snd (search_products query w))
  = trace w ++ [ReqSearch ("product_name.ilike.%" +++ query +++ "%,sku.ilike.%"
                           +++ query +++ "%")]
  /\ search_filter query
     = ("product_name.ilike.%" +++ query +++ "%,sku.ilike.%" +++ query +++ "%")
  /\ Str.count "," (search_filter query) = (1 + 2 * Str.count "," query)%nat
  /\ table (snd (search_products query w)) = table w
  /\ bucket (snd (search_products query w)) = bucket w
  /\ (next_call_succeeds w ->
      fst (search_products query w)
      = select_or (search_filter query) (map row_json (table w))
      /\ ui (snd (search_products query w)) = ui w)
  /\ (forall msg, next_call_raises w msg ->
                  fst (search_products query w) = []
                  /\ ui (snd (search_products query w))
                     = ui w ++ [st_error_msg ("Error searching products: "
                                              +++ Str.slice_to 100 msg)]).
Proof.
  unfold next_call_succeeds, next_call_raises.
  unfold search_products, bind, remote, get_table, st_error, ret.
  split; [now destruct (hd None (faults w)) |].
  split; [reflexivity |].
  split.
  { unfold search_filter. rewrite !count_append. cbn. lia. }
  split; [now destruct (hd None (faults w)) |].
  split; [now destruct (hd None (faults w)) |].
  split.
  - intros ->. now split.
  - intros msg ->. now split.
Qed.

(** X14: a delete that is answered removes the product and nothing else.
    No row with the id is left, every other row is still there, a listing
    that follows shows no record with the id, and the bucket is untouched:
    the images of the product stay in storage. *)
Theorem delete_removes_the_product (product_id : string) w :
  next_call_succeeds w ->
  (forall r, In r (table (snd (delete_product_from_supabase product_id w))) ->
             row_id r <> product_id)
  /\ (forall r, In r (table w) -> row_id r <> product_id ->
                In r (table (snd (delete_product_from_supabase product_id w))))
  /\ (next_call_succeeds (snd (delete_product_from_supabase product_id w)) ->
      forall d,
        In d (fst (get_all_products_from_supabase
                     (snd (delete_product_from_supabase product_id w)))) ->
        Py.lookup d "id" <> Some (PStr product_id))
  /\ bucket (snd (delete_product_from_supabase product_id w)) = bucket w.
Proof.
  unfold next_call_succeeds. intros H.
  assert (Hrun : delete_product_from_supabase product_id w
                 = (true,
                    {| bucket := bucket w;
                       table := filter (fun r => negb (String.eqb (row_id r) product_id))
                                       (table w);
                       faults := tl (faults w);
                       trace := trace w ++ [ReqDelete product_id];
                       rng := rng w; clock := clock w; ui := ui w |})).
  { unfold delete_product_from_supabase, bind, remote, get_table, set_table, ret.
    now rewrite H. }
  rewrite Hrun. cbn [snd table bucket].
  assert (Hgone : forall r,
             In r (filter (fun r => negb (String.eqb (row_id r) product_id)) (table w)) ->
             row_id r <> product_id).
  { intros r Hr. apply filter_In in Hr as [_ Hr].
    now apply negb_true_iff, String.eqb_neq in Hr. }
  repeat split.
  - exact Hgone.
  - intros r Hr Hid. apply filter_In. split; [exact Hr |].
    now apply negb_true_iff, String.eqb_neq.
  - intros Hok d Hd. rewrite (listing_when_answered _ Hok) in Hd.
    cbn [fst table] in Hd. apply in_map_iff in Hd as (r & <- & Hr).
    apply (Permutation_in r (order_desc_perm _)) in Hr.
    cbn [row_json Py.lookup String.eqb Ascii.eqb Bool.eqb].
    intros E. injection E as E. exact (Hgone r Hr E).
Qed.

Lemma lookup_dict_set_same (d : dict) (k : string) (v : pyval) :
  Py.lookup (dict_set d k v) k = Some v.
Proof.
  induction d as [|[k' v'] d IH]; cbn [dict_set Py.lookup].
  - now rewrite String.eqb_refl.
  - destruct (String.eqb k' k) eqn:E; cbn [Py.lookup]; now rewrite E.
Qed.

Lemma lookup_dict_set_other (d : dict) (k k' : string) (v : pyval) :
  k' <> k -> Py.lookup (dict_set d k v) k' = Py.lookup d k'.
Proof.
  intros Hk. induction d as [|[k0 v0] d IH]; cbn [dict_set Py.lookup].
  - apply String.eqb_neq in Hk. rewrite String.eqb_sym in Hk. now rewrite Hk.
  - destruct (String.eqb k0 k) eqn:E; cbn [Py.lookup].
    + apply String.eqb_eq in E. subst k0.
      apply String.eqb_neq in Hk. rewrite String.eqb_sym in Hk. now rewrite Hk.
    + now rewrite IH.
Qed.

Lemma confirm_key_injective (a b : string) :
  confirm_key a = confirm_key b -> a = b.
Proof. unfold confirm_key. apply append_cancel_l. Qed.

(** X15: one click never deletes.  A click on the delete button of a
    product that is not yet marked in the session sends nothing and leaves
    the table as it was; it shows the request to click again and marks that
    product, and no other, as confirmed. *)
Theorem first_click_only_asks (session_state : dict) (product_id : string) w :
  Py.truthy (Py.get session_state (confirm_key product_id) (PBool false)) = false ->
  fst (fst (delete_clicked session_state product_id w)) = AskedToConfirm
  /\ trace (snd (delete_clicked session_state product_id w)) = trace w
  /\ table (snd (delete_clicked session_state product_id w)) = table w
  /\ ui (snd (delete_clicked session_state product_id w))
     = ui w ++ [st_warning_msg "⚠️ Click delete again to confirm"]
  /\ Py.truthy (Py.get (snd (fst (delete_clicked session_state product_id w)))
                       (confirm_key product_id) (PBool false)) = true
  /\ (forall other, other <> product_id ->
        Py.lookup (snd (fst (delete_clicked session_state product_id w)))
                  (confirm_key other)
        = Py.lookup session_state (confirm_key other)).
Proof.
  intros H. unfold delete_clicked. rewrite H.
  cbn [bind st_warning ret fst snd trace table ui].
  repeat split.
  - unfold Py.get. now rewrite lookup_dict_set_same.
  - intros other Hother. apply lookup_dict_set_other.
    intros E. apply Hother. now apply confirm_key_injective.
Qed.

(** X16: a confirmed click sends the delete, and the confirmation is never
    taken back.  A click on a product that is marked in the session sends
    exactly one delete request for it and leaves the session as it is; it
    ends in [Deleted] when the store answers, and in [DeleteFailed] with two
    errors when the request raises, after which a single further click tries
    again. *)
Theorem confirmed_click_deletes (session_state : dict) (product_id : string) w :
  Py.truthy (Py.get session_state (confirm_key product_id) (PBool false)) = true ->
  trace (snd (delete_clicked session_state product_id w))
  = trace w ++ [ReqDelete product_id]
  /\ snd (fst (delete_clicked session_state product_id w)) = session_state
  /\ (next_call_succeeds w ->
      fst (fst (delete_clicked session_state product_id w)) = Deleted
      /\ (forall r, In r (table (snd (delete_clicked session_state product_id w))) ->
                    row_id r <> product_id)
      /\ ui (snd (delete_clicked session_state product_id w)) = ui w)
  /\ (forall msg, next_call_raises w msg ->
      fst (fst (delete_clicked session_state product_id w)) = DeleteFailed
      /\ table (snd (delete_clicked session_state product_id w)) = table w
      /\ ui (snd (delete_clicked session_state product_id w))
         = ui w ++ [st_error_msg ("Error deleting product: " +++ Str.slice_to 100 msg);
                    st_error_msg "❌ Failed to delete product"]).
Proof.
  intros H. unfold delete_clicked. rewrite H.
  unfold next_call_succeeds, next_call_raises, delete_product_from_supabase,
    bind, remote, get_table, set_table, st_error, ret.
  destruct (hd None (faults w)) as [e|]; cbn [fst snd trace table ui].
  - split; [reflexivity | split; [reflexivity | split]].
    + discriminate.
    + intros msg E. injection E as <-.
      split; [reflexivity | split; [reflexivity |]].
      now rewrite <- app_assoc.
  - split; [reflexivity | split; [reflexivity | split]].
    + intros _. split; [reflexivity | split; [| reflexivity]].
      intros r Hr. apply filter_In in Hr as [_ Hr].
      now apply negb_true_iff, String.eqb_neq in Hr.
    + discriminate.
Qed.

(** ** Export *)

Lemma traverse_results {A B : Type} (g : A -> option B) (l : list A) (bs : list B) :
  traverse g l = Some bs -> Forall2 (fun a b => g a = Some b) l bs.
Proof.
  revert bs. induction l as [|a l IH]; cbn [traverse]; intros bs H.
  - injection H as <-. constructor.
  - destruct (g a) as [b|] eqn:E; [| discriminate H].
    destruct (traverse g l) as [bs'|]; [| discriminate H].
    injection H as <-. constructor; [exact E | now apply IH].
Qed.

Lemma traverse_total {A B : Type} (g : A -> option B) (l : list A) :
  Forall (fun a => exists b, g a = Some b) l -> exists bs, traverse g l = Some bs.
Proof.
  induction 1 as [|a l [b Hb] _ [bs Hbs]]; cbn [traverse].
  - now exists [].
  - rewrite Hb, Hbs. now eexists.
Qed.

Lemma basic_record_length (product : dict) (row : list pyval) :
  basic_record product = Some row -> length row = length basic_columns.
Proof.
  unfold basic_record. destruct (created_at_cell product); [| discriminate].
  intros H. injection H as <-. reflexivity.
Qed.

Lemma bat_record_shape (product : dict) (deep_custom : pyval) (row : list pyval) :
  bat_record product deep_custom = Some row ->
  length row = length bat_columns
  /\ (nth 5 row PNone = PStr "Yes" \/ nth 5 row PNone = PStr "No").
Proof.
  unfold bat_record.
  destruct (Py.attr_get deep_custom "edition" _) as [edition|]; [| discriminate].
  destruct (Py.attr_get deep_custom "laser_engraving" _) as [laser|]; [| discriminate].
  destruct (Py.attr_get edition "heading" _); [| discriminate].
  destruct (Py.attr_get edition "grains" _); [| discriminate].
  destruct (Py.attr_get edition "grade" _); [| discriminate].
  destruct (Py.attr_get laser "enabled" _) as [enabled|]; [| discriminate].
  destruct (Py.attr_get laser "price" _); [| discriminate].
  intros H. injection H as <-. split; [reflexivity |].
  cbn [nth]. destruct (Py.truthy enabled); auto.
Qed.

(** X17: the shape of an exported workbook.  When the export goes through,
    the sheet [Products] has one row for each record, each row with one cell
    for each of its eleven columns; a sheet that follows has the seven
    columns of [Bat Customization], one row of seven cells for each record
    that is a cricket bat with a payload, and in each row the laser cell is
    Yes or No. *)
Theorem workbook_has_one_row_per_record (products : list dict) (sheets : list Sheet) :
  excel_export products = Some sheets ->
  exists products_sheet others,
    sheets = products_sheet :: others
    /\ length (sheet_rows products_sheet) = length products
    /\ Forall (fun row => length row = length basic_columns)
              (sheet_rows products_sheet)
    /\ (products <> [] -> sheet_columns products_sheet = basic_columns)
    /\ Forall (fun s =>
                 sheet_columns s = bat_columns
                 /\ length (sheet_rows s) = length (filter on_bat_sheet products)
                 /\ Forall (fun row =>
                              length row = length bat_columns
                              /\ (nth 5 row PNone = PStr "Yes"
                                  \/ nth 5 row PNone = PStr "No"))
                           (sheet_rows s))
              others.
Proof.
  intros H.
  destruct (excel_export_sheets products sheets H)
    as (basic_data & rows & Hbasic & Hrows & ->).
  apply traverse_results in Hbasic.
  eexists. eexists. split; [reflexivity |].
  cbn [data_frame sheet_rows sheet_columns].
  split; [symmetry; exact (Forall2_length Hbasic) |]. split; [| split].
  - clear -Hbasic. induction Hbasic as [|p row ps rs Hp _ IH]; constructor.
    + exact (basic_record_length p row Hp).
    + exact IH.
  - intros Hne. destruct Hbasic; [congruence | reflexivity].
  - destruct rows as [|row rows]; constructor; [| constructor].
    cbn [data_frame sheet_rows sheet_columns].
    split; [reflexivity |]. split; [symmetry; exact (Forall2_length Hrows) |].
    clear -Hrows.
    induction Hrows as [|p r ps rs Hp _ IH]; constructor.
    + exact (bat_record_shape p _ r Hp).
    + exact IH.
Qed.

Lemma basic_record_of_row (r : Row) :
  exists row, basic_record (row_json r) = Some row.
Proof.
  unfold basic_record, created_at_cell, Py.get_none, Py.get, row_json.
  cbn [Py.lookup String.eqb Ascii.eqb Bool.eqb Py.truthy Py.slice_to].
  destruct (negb (String.eqb (isoformat (row_created_at r)) "")); eexists; reflexivity.
Qed.

Lemma bat_data_total (bat_products : list dict) :
  Forall (fun p => Py.truthy (deep_custom_of p) = true ->
                   exists row, bat_record p (deep_custom_of p) = Some row)
         bat_products ->
  exists rows, bat_data bat_products = Some rows.
Proof.
  induction 1 as [|p ps Hp _ [rows Hrows]]; cbn [bat_data].
  - now exists [].
  - destruct (Py.truthy (deep_custom_of p)).
    + destruct (Hp eq_refl) as [row ->]. rewrite Hrows. now eexists.
    + now exists rows.
Qed.

Lemma app_made_bat_record (r : Row) :
  app_made r ->
  Py.truthy (deep_custom_of (row_json r)) = true ->
  exists row, bat_record (row_json r) (deep_custom_of (row_json r)) = Some row.
Proof.
  intros (f & m & g & v & d & t & Hcols & Hd).
  unfold deep_custom_of, Py.get.
  rewrite lookup_row_json by (discriminate || reflexivity).
  rewrite Hcols.
  assert (Hdc : Py.lookup (product_data f m g v d t) "deep_customization"
                = Some (if is_bat (product_type f) then PDict d else PNone))
    by reflexivity.
  rewrite Hdc.
  destruct (is_bat (product_type f)); [| discriminate].
  destruct Hd as [-> | (e & l & ->)]; [discriminate |].
  intros _. eexists. reflexivity.
Qed.

(** X18: what the handler saved can always be exported.  If every row of
    the table holds a record the save handler builds, the export of a
    listing that is answered goes through: it raises nothing and gives a
    workbook whose first sheet has one row for each row of the table. *)
Theorem handler_records_can_be_exported w :
  Forall app_made (table w) ->
  next_call_succeeds w ->
  exists products_sheet others,
    excel_export (fst (get_all_products_from_supabase w))
    = Some (products_sheet :: others)
    /\ sheet_name products_sheet = "Products"%string
    /\ length (sheet_rows products_sheet) = length (table w).
Proof.
  intros Hw Hok. rewrite (listing_when_answered w Hok). cbn [fst].
  assert (Hrows : Forall app_made (order_desc (table w))).
  { apply Forall_forall. intros r Hr.
    apply (Permutation_in r (order_desc_perm _)) in Hr.
    revert r Hr. now apply Forall_forall. }
  assert (Hlen : length (order_desc (table w)) = length (table w))
    by apply Permutation_length, order_desc_perm.
  revert Hrows Hlen. generalize (order_desc (table w)) as rows. intros rows Hrows <-.
  destruct (traverse_total basic_record (map row_json rows)) as [basic_data Hbasic].
  { apply Forall_forall. intros p Hp. apply in_map_iff in Hp as (r & <- & _).
    apply basic_record_of_row. }
  destruct (bat_data_total (filter has_bat_type (map row_json rows)))
    as [bat_rows Hbat].
  { apply Forall_forall. intros p Hp. apply filter_In in Hp as [Hp _].
    apply in_map_iff in Hp as (r & <- & Hr).
    apply app_made_bat_record. revert r Hr. now apply Forall_forall. }
  unfold excel_export. rewrite Hbasic.
  assert (Hcount : length basic_data = length rows).
  { apply traverse_results, Forall2_length in Hbasic.
    now rewrite length_map in Hbasic. }
  destruct (filter has_bat_type (map row_json rows)) as [|b bs].
  - eexists. eexists. split; [reflexivity |]. split; [reflexivity | exact Hcount].
  - rewrite Hbat. destruct bat_rows;
      (eexists; eexists; split; [reflexivity |]; split; [reflexivity | exact Hcount]).
Qed.

(** ** Analytics *)







End FurtherProperties.

(** * Further runs of the model *)

Module FurtherRuns.

Import Demo.




(** A 2 MiB RGBA image is re-encoded, then its upload raises: the error
    names the [.jpg] file. *)
Lemma failed_upload_is_reported_once_witness :
  fst (upload_image_to_supabase (Some (png "side.png" "RGBA" MiB2))
         "products/gallery" (with_faults [Some "bucket not found"%string] quiet))
  = PNone
  /\ ui (snd (upload_image_to_supabase (Some (png "side.png" "RGBA" MiB2))
                "products/gallery"
                (with_faults [Some "bucket not found"%string] quiet)))
     = [st_error_msg "Error uploading side.jpg: bucket not found"].
Proof.
  destruct (failed_upload_is_reported_once (png "side.png" "RGBA" MiB2)
              "products/gallery" "bucket not found"
              (with_faults [Some "bucket not found"%string] quiet)
              eq_refl eq_refl)
    as (f' & path & Hc & Hr & _ & _ & _ & _ & Hu).
  split; [exact Hr |]. vm_compute. reflexivity.
Defined.


Lemma insert_follows_the_uploads_witness :
  exists ups record,
    trace (snd (save_to_database true reserve_bat_big_image quiet))
    = trace quiet ++ ups ++ [ReqInsert record]
    /\ forallb is_upload ups = true
    /\ length ups = form_upload_requests reserve_bat_big_image
    /\ Py.lookup record "product_name" = Some (PStr "Reserve Bat").
Proof.
  apply (insert_follows_the_uploads reserve_bat_big_image quiet).
  - discriminate.
  - reflexivity.
Defined.

(** The main image is stored, the insert raises: the object stays in the
    bucket and the table stays empty. *)
Lemma failed_insert_keeps_the_uploads_witness :
  fst (save_to_database true bat_with_photo
         (with_faults [None; Some "permission denied"%string] quiet)) = Failed
  /\ table (snd (save_to_database true bat_with_photo
                   (with_faults [None; Some "permission denied"%string] quiet)))
     = []
  /\ map obj_path
       (bucket (snd (save_to_database true bat_with_photo
                       (with_faults [None; Some "permission denied"%string] quiet))))
     = ["products/main/00000000-0000-4000-8000-0.png"%string].
Proof.
  destruct (failed_insert_keeps_the_uploads bat_with_photo
              (with_faults [None; Some "permission denied"%string] quiet)
              "permission denied")
    as (Hf & Ht & Hb & _).
  - discriminate.
  - reflexivity.
  - reflexivity.
  - split; [exact Hf | split; [exact Ht |]].
    rewrite Hb. vm_compute. reflexivity.
Defined.


Lemma stocked_rows_are_older : created_before_now stocked.
Proof.
  unfold created_before_now. cbn. repeat constructor.
Defined.

Lemma saved_record_is_listed_first_witness :
  exists d rest,
    match fst (save_to_database true reserve_bat stocked) with
    | Saved result => result
    | _ => PNone
    end = PDict d
    /\ fst (get_all_products_from_supabase
              (snd (save_to_database true reserve_bat stocked))) = d :: rest.
Proof.
  apply (saved_record_is_listed_first true reserve_bat stocked).
  - exact stocked_rows_are_older.
  - vm_compute. reflexivity.
  - reflexivity.
Defined.


Lemma after_custom_bat_is_handler_made : Forall app_made (table after_custom_bat).
Proof.
  constructor; [| constructor].
  exists custom_bat, PNone, [], [], (deep_custom_entry custom_bat PNone PNone), 0.
  split.
  - vm_compute. reflexivity.
  - right. exists PNone, PNone. reflexivity.
Defined.

Lemma table_holds_handler_records_witness :
  Forall app_made (table (snd (save_to_database true two_sizes after_custom_bat)))
  /\ Forall app_made
       (table (snd (delete_product_from_supabase "none" after_custom_bat))).
Proof.
  destruct (table_holds_handler_records after_custom_bat
              after_custom_bat_is_handler_made) as (Hsave & Hdelete).
  exact (conj (Hsave true two_sizes) (Hdelete "none"%string)).
Defined.

Lemma delete_removes_the_product_witness :
  (forall r, In r (table (snd (delete_product_from_supabase "b" stocked))) ->
             row_id r <> "b"%string)
  /\ map row_id (table (snd (delete_product_from_supabase "b" stocked)))
     = ["a"; "c"]%string.
Proof.
  destruct (delete_removes_the_product "b" stocked eq_refl) as (Hgone & _).
  split; [exact Hgone | reflexivity].
Defined.

Lemma first_click_only_asks_witness :
  fst (fst (delete_clicked [] "b" stocked)) = AskedToConfirm
  /\ table (snd (delete_clicked [] "b" stocked)) = three_rows
  /\ trace (snd (delete_clicked [] "b" stocked)) = [].
Proof.
  destruct (first_click_only_asks [] "b" stocked eq_refl)
    as (Hr & Ht & Htab & _).
  exact (conj Hr (conj Htab Ht)).
Defined.

(** Two clicks in a row: the first asks, the second deletes. *)
Lemma confirmed_click_deletes_witness :
  let first := delete_clicked [] "b" stocked in
  let second := delete_clicked (snd (fst first)) "b" (snd first) in
  fst (fst second) = Deleted
  /\ trace (snd second) = [ReqDelete "b"]
  /\ map row_id (table (snd second)) = ["a"; "c"]%string.
Proof.
  cbv zeta.
  destruct (confirmed_click_deletes
              (snd (fst (delete_clicked [] "b" stocked))) "b"
              (snd (delete_clicked [] "b" stocked)) eq_refl)
    as (Ht & _ & Hok & _).
  destruct (Hok eq_refl) as (Hd & _).
  split; [exact Hd | split; [exact Ht | reflexivity]].
Defined.

Lemma workbook_has_one_row_per_record_witness :
  exists products_sheet others,
    workbook_after_saving custom_bat = products_sheet :: others
    /\ length (sheet_rows products_sheet) = 1%nat
    /\ length others = 1%nat.
Proof.
  destruct (workbook_has_one_row_per_record (listed_after_saving custom_bat)
              (workbook_after_saving custom_bat))
    as (s & others & Hs & Hlen & _).
  - vm_compute. reflexivity.
  - exists s, others. split; [exact Hs | split; [exact Hlen |]].
    assert (E : length (workbook_after_saving custom_bat) = 2%nat)
      by (vm_compute; reflexivity).
    rewrite Hs in E. cbn in E. now injection E.
Defined.

Lemma handler_records_can_be_exported_witness :
  exists products_sheet others,
    excel_export (fst (get_all_products_from_supabase after_custom_bat))
    = Some (products_sheet :: others)
    /\ sheet_name products_sheet = "Products"%string
    /\ length (sheet_rows products_sheet) = length (table after_custom_bat).
Proof.
  apply (handler_records_can_be_exported after_custom_bat).
  - exact after_custom_bat_is_handler_made.
  - reflexivity.
Defined.

(** ** More of the model on concrete inputs *)

Example name_without_a_dot_is_its_own_extension :
  fst (upload_image_to_supabase
         (Some {| file_name := "photo"; file_type := "image/png";
                  file_size := KiB200; file_data := Picture "PNG" "RGB" KiB200 |})
         "products/main" quiet)
  = stored_asset "photo" "products/main/00000000-0000-4000-8000-0.photo"
      (get_public_url "products/main/00000000-0000-4000-8000-0.photo").
Proof. vm_compute. reflexivity. Qed.

Example failed_variation_image_keeps_the_variation :
  match fst (save_to_database true two_sizes quiet) with
  | Saved (PDict d) =>
      Py.lookup d "variations"
      = Some (PList
                [variation_entry
                   {| var_name := "Size: Short"; var_price := 4500%float;
                      var_sku := "BAT-001-S"; var_stock := 3;
                      var_image := @None (File blob) |} PNone;
                 variation_entry
                   {| var_name := "Size: Long"; var_price := 4800%float;
                      var_sku := "BAT-001-L"; var_stock := 2;
                      var_image := @None (File blob) |} PNone])
      /\ Py.lookup d "deep_customization" = Some PNone
  | _ => False
  end.
Proof. vm_compute. split; reflexivity. Qed.

Example counts_by_type_and_stock :
  type_counts [[("product_type"%string, PStr "Simple Product")];
               [("product_type"%string, PStr "Variable Product")];
               [("product_type"%string, PStr "Simple Product")];
               [("sku"%string, PStr "X")]]
  = Some [(PStr "Simple Product", 2); (PStr "Variable Product", 1);
          (PStr "Unknown", 1)]
  /\ stock_counts [[("stock_status"%string, PNone)];
                   [("stock_status"%string, PStr "In Stock")];
                   [("stock_status"%string, PNone)]]
     = Some [(PNone, 2); (PStr "In Stock", 1)]
  /\ type_counts [[("product_type"%string, PList [])]] = None.
Proof. repeat split. Qed.

Example one_and_one_point_zero_are_one_key :
  count_from [] "n" [[("n"%string, PInt 1)]; [("n"%string, PFloat 1%float)];
                     [("n"%string, PBool true)]; [("n"%string, PFloat 1.5%float)]]
  = Some [(PInt 1, 3); (PFloat 1.5%float, 1)].
Proof. vm_compute. reflexivity. Qed.

(** The cut of an error text counts characters: the cross mark is one
    character of three bytes. *)
Example cut_keeps_whole_characters :
  Str.slice_to 2 "❌ Failed" = "❌ "%string
  /\ Str.len "❌ Failed" = 8%nat
  /\ String.length "❌ Failed" = 10%nat.
Proof. vm_compute. repeat split. Qed.

(** A price entered with three decimals reads back with two. *)
Example price_reads_back_with_two_decimals :
  match fst (save_to_database true
               (form_of SimpleProduct "Reserve Bat" 19.998046875%float None [] false)
               quiet) with
  | Saved (PDict d) => Py.lookup d "regular_price" = Some (PFloat 20%float)
  | _ => False
  end.
Proof. vm_compute. reflexivity. Qed.

(** A comma typed in the query ends up in the filter as it is. *)
Example comma_in_the_query_reaches_the_filter :
  trace (snd (search_products "bat,ball" quiet))
  = [ReqSearch "product_name.ilike.%bat,ball%,sku.ilike.%bat,ball%"]
  /\ Str.count "," (search_filter "bat,ball") = 3%nat.
Proof. vm_compute. split; reflexivity. Qed.

Example click_for_one_product_does_not_confirm_another :
  let first := delete_clicked [] "b" stocked in
  fst (fst (delete_clicked (snd (fst first)) "a" (snd first))) = AskedToConfirm.
Proof. vm_compute. reflexivity. Qed.

End FurtherRuns.
